(** * PyPlag: the same-author filter of JPlag reports

    A shallow embedding of [src/main.py] (class [PyPlag]: [__init__], [run]
    and [_post_process_jplag_results]) together with the three dataclasses
    [PyPlagSubmission], [PyPlagReport] and [PyPlagSettings].

    Conventions of the embedding:
    - a Python statement sequence is a computation in the monad [py S], a
      state transformer that returns either a value or the exception that
      was raised; as in Python the state reached when an exception is raised
      is kept (mutations are not rolled back);
    - JSON objects used as dictionaries are [gmap]s, JSON arrays are lists,
      JSON numbers are integers or binary64 floats ([spec_float] with
      [prec = 53], [emax = 1024]);
    - a directory is an association list from entry names to nodes, its
      order being the order in which [iterdir] enumerates it;
    - a file holds a sequence of serialised JSON documents: a well-formed
      JSON file holds exactly one, and writing after having read to the end
      of the file appends one more;
    - JSON documents are typed by the file they are in, as JPlag writes
      them: the document of [overview.json] is an overview, the document
      of a comparison file is a comparison record, and the values under
      the keys that the filter reads have the types of the data model. *)

From Stdlib Require Import ZArith String Ascii List Lia Bool.
From Stdlib Require Import Floats.SpecFloat.
From stdpp Require Import gmap strings list fin_maps.

Local Open Scope string_scope.
Local Open Scope list_scope.
Local Open Scope Z_scope.

(** ** Exceptions and the monad of Python statements *)

Inductive exn : Type :=
| FileNotFoundError
| IsADirectoryError
| NotADirectoryError
| FileExistsError
| BadZipFile
| JSONDecodeError
| ValueError
| KeyError
| IndexError
| OverflowError
| OSError
| PyPlagException (msg : string).

Inductive result (A : Type) : Type :=
| Ok (a : A)
| Raise (e : exn).
Arguments Ok {A} a.
Arguments Raise {A} e.

Definition is_Ok {A} (r : result A) : bool :=
  match r with Ok _ => true | Raise _ => false end.

Definition py (S A : Type) : Type := S -> result A * S.

Definition ret {S A} (a : A) : py S A := fun s => (Ok a, s).

Definition raise {S A} (e : exn) : py S A := fun s => (Raise e, s).

Definition bind {S A B} (m : py S A) (k : A -> py S B) : py S B :=
  fun s => match m s with
           | (Ok a, s') => k a s'
           | (Raise e, s') => (Raise e, s')
           end.

Definition get {S} : py S S := fun s => (Ok s, s).

Definition modify {S} (f : S -> S) : py S unit := fun s => (Ok tt, f s).

(** [lift r] runs a computation that does not touch the state. *)
Definition lift {S A} (r : result A) : py S A := fun s => (r, s).

(** [try: body / except KeyError: pass]. Only [KeyError] is handled; the
    state is the one the body had reached when it raised. *)
Definition try_except_KeyError {S} (body : py S unit) : py S unit :=
  fun s => match body s with
           | (Raise KeyError, s') => (Ok tt, s')
           | r => r
           end.

Declare Scope py_scope.
Delimit Scope py_scope with py.
Notation "'let*' x ':=' c1 'in' c2" := (bind c1 (fun x => c2))
  (at level 10, x name, c1 at level 100, c2 at level 200) : py_scope.
Notation "'let*' ' p ':=' c1 'in' c2" := (bind c1 (fun p => c2))
  (at level 10, p strict pattern, c1 at level 100, c2 at level 200) : py_scope.
Notation "c1 '>>' c2" := (bind c1 (fun _ => c2))
  (at level 100, c2 at level 200, right associativity) : py_scope.

(** [for x in xs: body x] *)
Fixpoint for_each {S A} (xs : list A) (body : A -> py S unit) : py S unit :=
  match xs with
  | [] => ret tt
  | x :: xs' => bind (body x) (fun _ => for_each xs' body)
  end.

(** ** Strings: [str.split] and [pathlib]'s [stem] *)

Definition dash : ascii := "-"%char.
Definition dot : ascii := "."%char.

(** [s.split(sep)] for a one-character separator: the pieces between the
    occurrences of [sep], never an empty list. *)
Fixpoint split (sep : ascii) (s : string) : list string :=
  match s with
  | EmptyString => [EmptyString]
  | String c s' =>
      if Ascii.eqb c sep then EmptyString :: split sep s'
      else match split sep s' with
           | h :: t => String c h :: t
           | [] => [String c EmptyString]
           end
  end.

(** [s.rfind(c)]: the index of the last occurrence of [c]. *)
Fixpoint rfind (c : ascii) (s : string) : option nat :=
  match s with
  | EmptyString => None
  | String a s' =>
      match rfind c s' with
      | Some i => Some (S i)
      | None => if Ascii.eqb a c then Some O else None
      end
  end.

(** [PurePath.stem] on a file name: the name without its last suffix; a
    leading dot or a trailing dot does not start a suffix
    ([0 < i < len(name) - 1]). *)
Definition stem (name : string) : string :=
  match rfind dot name with
  | Some i =>
      if ((0 <? i)%nat && (i <? String.length name - 1)%nat)%bool
      then substring 0 i name
      else name
  | None => name
  end.

(** [a, b = s.split("-")]: unpacking raises [ValueError] unless there are
    exactly two pieces. *)
Definition unpack2 (l : list string) : result (string * string) :=
  match l with
  | [a; b] => Ok (a, b)
  | _ => Raise ValueError
  end.

(** ** JSON numbers *)

Definition prec : Z := 53.
Definition emax : Z := 1024.

Inductive pynum : Type :=
| PyInt (z : Z)
| PyFloat (f : spec_float).

(** The binary64 float nearest to an integer. *)
Definition float_of_Z (z : Z) : spec_float := binary_normalize prec emax z 0 false.

(** The binary64 float nearest to the decimal [num / den], as [float("...")]
    reads it. *)
Definition float_of_ratio (num den : Z) : spec_float :=
  SFdiv prec emax (float_of_Z num) (float_of_Z den).

(** [x * k] for an integer constant [k]: an [int] stays an [int], a
    [float] is multiplied by [float(k)] with one rounding. *)
Definition py_mul_int (x : pynum) (k : Z) : pynum :=
  match x with
  | PyInt z => PyInt (z * k)
  | PyFloat f => PyFloat (SFmul prec emax f (float_of_Z k))
  end.

(** The integer part of a finite float, rounded towards zero. *)
Definition float_trunc (s : bool) (m : positive) (e : Z) : Z :=
  let a := match e with
           | Zneg p => Z.pos m / 2 ^ Z.pos p
           | _ => Z.pos m * 2 ^ e
           end in
  if s then - a else a.

(** [int(x)]: truncation towards zero; [OverflowError] on an infinity and
    [ValueError] on a NaN. *)
Definition py_int (x : pynum) : result Z :=
  match x with
  | PyInt z => Ok z
  | PyFloat (S754_zero _) => Ok 0
  | PyFloat (S754_finite s m e) => Ok (float_trunc s m e)
  | PyFloat (S754_infinity _) => Raise OverflowError
  | PyFloat S754_nan => Raise ValueError
  end.

(** [l[i]] index resolution: a negative index counts from the end. *)
Definition py_index (len i : Z) : result nat :=
  if (0 <=? i) && (i <? len) then Ok (Z.to_nat i)
  else if (- len <=? i) && (i <? 0) then Ok (Z.to_nat (i + len))
  else Raise IndexError.

(** [l[i] -= 1] *)
Definition list_decrement (l : list Z) (i : Z) : result (list Z) :=
  match py_index (Z.of_nat (length l)) i with
  | Ok n =>
      match l !! n with
      | Some v => Ok (<[n := v - 1]> l)
      | None => Raise IndexError
      end
  | Raise e => Raise e
  end.

(** ** The data model *)

(** [PyPlagSubmission] *)
Record PyPlagSubmission : Type := {
  id : string;
  lang : string;
  author : string;
  files : gmap string string;
}.

(** A path is the list of its components. *)
Abbreviation path := (list string).

(** [PyPlagSettings] *)
Record PyPlagSettings : Type := {
  java_cmd : string;
  jplag_jar : path;
  report_dir : path;
  clustering : bool;
  filter_runs_by_author : bool;
  ignore_unsupported_language : bool;
}.

(** [PyPlagReport] *)
Record PyPlagReport : Type := {
  status : Z;
  stdout : string;
  stderr : string;
  report_path : path;
  report_min_path : option path;
}.

(** One element of [overview["top_comparisons"]]; the filter reads the two
    submission names only. *)
Record descriptor : Type := {
  first_submission : string;
  second_submission : string;
  descriptor_rest : string;
}.

(** The document [overview.json]. The filter reads three of its keys,
    which JPlag always writes. A missing [distributions] or
    [submission_ids_to_comparison_file_name] key raises the same
    [KeyError] as the empty dictionary does at the first access below it,
    and is represented by the empty map. *)
Record overview_doc : Type := {
  distributions : gmap string (list Z);
  submission_ids_to_comparison_file_name : gmap string (gmap string string);
  top_comparisons : list descriptor;
  overview_rest : string;
}.

(** The document of a comparison file; the filter reads [similarities]
    only. *)
Record comparison : Type := {
  id1 : string;
  id2 : string;
  similarities : gmap string pynum;
  matches : list string;
  first_similarity : pynum;
  second_similarity : pynum;
}.

(** A serialised document: one of the two kinds of JSON documents of a
    report, or text that is not JSON. *)
Inductive doc : Type :=
| DOverview (o : overview_doc)
| DComparison (c : comparison)
| DText (s : string).

(** A file is the sequence of the documents written to it. *)
Definition content : Type := list doc.

(** An entry of the scratch directory: a file, or a directory with the
    files below it (relative path and raw text), which the filter never
    looks into. *)
Inductive node : Type :=
| NFile (c : content)
| NDir (members : list (path * string)).

(** A directory: its entries in the order of their enumeration. *)
Definition directory : Type := list (string * node).

Fixpoint dir_lookup (name : string) (d : directory) : option node :=
  match d with
  | [] => None
  | (n, x) :: d' => if String.eqb n name then Some x else dir_lookup name d'
  end.

Definition dir_remove (name : string) (d : directory) : directory :=
  List.filter (fun e => negb (String.eqb (fst e) name)) d.

(** Create [name] or replace what it holds, keeping its place. *)
Fixpoint dir_write (name : string) (x : node) (d : directory) : directory :=
  match d with
  | [] => [(name, x)]
  | (n, y) :: d' =>
      if String.eqb n name then (n, x) :: d' else (n, y) :: dir_write name x d'
  end.

Definition dir_names (d : directory) : list string := map fst d.

(** What the filter does to the files of the scratch directory. *)
Inductive fs_event : Type :=
| EvLoad (name : string)
| EvWrite (name : string) (d : doc)
| EvUnlink (name : string).

(** The state of the loop of [_post_process_jplag_results]: the scratch
    directory, the loaded [overview] and the file operations so far. *)
Record fstate : Type := {
  scratch : directory;
  overview : overview_doc;
  trace : list fs_event;
}.

Definition set_scratch (f : directory -> directory) (st : fstate) : fstate :=
  {| scratch := f (scratch st); overview := overview st; trace := trace st |}.

Definition set_overview (f : overview_doc -> overview_doc) (st : fstate) : fstate :=
  {| scratch := scratch st; overview := f (overview st); trace := trace st |}.

Definition log (ev : fs_event) (st : fstate) : fstate :=
  {| scratch := scratch st; overview := overview st; trace := trace st ++ [ev] |}.

Definition set_distributions (f : gmap string (list Z) -> gmap string (list Z))
    (o : overview_doc) : overview_doc :=
  {| distributions := f (distributions o);
     submission_ids_to_comparison_file_name := submission_ids_to_comparison_file_name o;
     top_comparisons := top_comparisons o;
     overview_rest := overview_rest o |}.

Definition set_index (f : gmap string (gmap string string) -> gmap string (gmap string string))
    (o : overview_doc) : overview_doc :=
  {| distributions := distributions o;
     submission_ids_to_comparison_file_name := f (submission_ids_to_comparison_file_name o);
     top_comparisons := top_comparisons o;
     overview_rest := overview_rest o |}.

Definition set_top_comparisons (f : list descriptor -> list descriptor)
    (o : overview_doc) : overview_doc :=
  {| distributions := distributions o;
     submission_ids_to_comparison_file_name := submission_ids_to_comparison_file_name o;
     top_comparisons := f (top_comparisons o);
     overview_rest := overview_rest o |}.

(** [d[k]] on a dictionary *)
Definition dict_get {V} (d : gmap string V) (k : string) : result V :=
  match d !! k with
  | Some v => Ok v
  | None => Raise KeyError
  end.

(** ** [_post_process_jplag_results]: the loop body *)

Definition ignore_files : list string :=
  ["basecode"; "files"; "options.json"; "overview.json"; "README.txt";
   "submissionFileIndex.json"].

Definition SIMILARITY_DISTRIBUTION_SIZE : Z := 100.

Definition zero : pynum := PyFloat (S754_zero false).

(** The dictionary that lines 154-164 serialise. *)
Definition placeholder (submission_id1 submission_id2 : string) : comparison :=
  {| id1 := submission_id1;
     id2 := submission_id2;
     similarities := <["MAX" := zero]> (<["AVG" := zero]> ∅);
     matches := [];
     first_similarity := zero;
     second_similarity := zero |}.

(** [open(file_path, "r+")] *)
Definition open_rw (name : string) : py fstate content :=
  fun st => match dir_lookup name (scratch st) with
            | Some (NFile c) => (Ok c, st)
            | Some (NDir _) => (Raise IsADirectoryError, st)
            | None => (Raise FileNotFoundError, st)
            end.

(** [json.load(file)] reads the file to its end; the file has to hold
    exactly one document. *)
Definition json_load_comparison (name : string) (c : content) : py fstate comparison :=
  fun st => match c with
            | [DComparison r] => (Ok r, log (EvLoad name) st)
            | _ => (Raise JSONDecodeError, log (EvLoad name) st)
            end.

(** [file.write(json.dumps(...))] on a file read to its end: the text is
    appended. *)
Definition file_write (name : string) (c : content) (d : doc) : py fstate unit :=
  modify (fun st => log (EvWrite name d)
                      (set_scratch (dir_write name (NFile (c ++ [d]))) st)).

(** [file_path.unlink()] *)
Definition unlink (name : string) : py fstate unit :=
  fun st => match dir_lookup name (scratch st) with
            | Some (NFile _) => (Ok tt, log (EvUnlink name) (set_scratch (dir_remove name) st))
            | Some (NDir _) => (Raise IsADirectoryError, st)
            | None => (Raise FileNotFoundError, st)
            end.

(** [del overview["submission_ids_to_comparison_file_name"][a][b]] *)
Definition del_index (a b : string) : py fstate unit :=
  fun st =>
    let index := submission_ids_to_comparison_file_name (overview st) in
    match index !! a with
    | None => (Raise KeyError, st)
    | Some inner =>
        match inner !! b with
        | None => (Raise KeyError, st)
        | Some _ => (Ok tt, set_overview (set_index <[a := delete b inner]>) st)
        end
    end.

(** Lines 169-174 *)
Definition prune_index (submission_id1 submission_id2 : string) : py fstate unit :=
  try_except_KeyError
    (del_index submission_id1 submission_id2 >>
     del_index submission_id2 submission_id1)%py.

(** The index expression of lines 183-186. *)
Definition bucket_index (value : pynum) : result Z :=
  match py_int (py_mul_int value SIMILARITY_DISTRIBUTION_SIZE) with
  | Ok k => Ok (Z.min k (SIMILARITY_DISTRIBUTION_SIZE - 1))
  | Raise e => Raise e
  end.

(** Lines 182-187 for one [metric]: the list is looked up first, then the
    index is computed, then the element is decremented in place. *)
Definition correct_distribution (file_data : comparison) (metric : string) : py fstate unit :=
  (let* st := get in
   let* histogram := lift (dict_get (distributions (overview st)) metric) in
   let* value := lift (dict_get (similarities file_data) metric) in
   let* i := lift (bucket_index value) in
   let* histogram' := lift (list_decrement histogram i) in
   modify (set_overview (set_distributions <[metric := histogram']>)))%py.

(** Lines 189-195 *)
Definition filter_comparison (submission_id1 submission_id2 : string) (comp : descriptor) : bool :=
  if (String.eqb (first_submission comp) submission_id1
      && String.eqb (second_submission comp) submission_id2)
     || (String.eqb (first_submission comp) submission_id2
         && String.eqb (second_submission comp) submission_id1)
  then false else true.

(** Lines 149-197: the branch taken when the two authors are equal. *)
Definition remove_collision (name submission_id1 submission_id2 : string) : py fstate unit :=
  (let* c := open_rw name in
   let* file_data := json_load_comparison name c in
   file_write name c (DComparison (placeholder submission_id1 submission_id2)) >>
   unlink name >>
   prune_index submission_id1 submission_id2 >>
   for_each ["MAX"; "AVG"] (correct_distribution file_data) >>
   modify (set_overview
             (set_top_comparisons
                (List.filter (filter_comparison submission_id1 submission_id2)))))%py.

(** Lines 140-197: the body of the loop over the scratch directory. *)
Definition process_entry (submissions_dict : gmap string PyPlagSubmission)
    (name : string) : py fstate unit :=
  if bool_decide (name ∈ ignore_files) then ret tt
  else
    (let* ids := lift (unpack2 (split dash (stem name))) in
     let* submission1 := lift (dict_get submissions_dict (fst ids)) in
     let* submission2 := lift (dict_get submissions_dict (snd ids)) in
     if String.eqb (author submission1) (author submission2)
     then remove_collision name (fst ids) (snd ids)
     else ret tt)%py.

(** Lines 139-197: [tmpfile.iterdir()] lists the directory once. *)
Definition filter_entries (submissions_dict : gmap string PyPlagSubmission) : py fstate unit :=
  (let* st := get in
   for_each (dir_names (scratch st)) (process_entry submissions_dict))%py.

(** ** The file system outside the scratch directory *)

(** What a path names: a directory, a zip archive (its members grouped by
    their first path component) or another file. *)
Inductive fsnode : Type :=
| Directory
| ZipArchive (members : directory)
| RegularFile (text : string).

Abbreviation world := (gmap path fsnode).

(** [PurePath.suffix] of a file name *)
Definition suffix (name : string) : string :=
  match rfind dot name with
  | Some i =>
      if ((0 <? i)%nat && (i <? String.length name - 1)%nat)%bool
      then substring i (String.length name - i) name
      else ""
  | None => ""
  end.

Definition path_name (p : path) : string := List.last p "".

(** [p.with_stem(s)], that is [p.with_name(s + p.suffix)]; a path without
    a name has none to replace. *)
Definition with_stem (p : path) (s : string) : result path :=
  match p with
  | [] => Raise ValueError
  | _ => Ok (removelast p ++ [s +:+ suffix (path_name p)])
  end.

(** [ZipFile(report)] opened for reading *)
Definition open_zip (p : path) : py world directory :=
  fun w => match w !! p with
           | Some (ZipArchive a) => (Ok a, w)
           | Some (RegularFile _) => (Raise BadZipFile, w)
           | Some Directory => (Raise IsADirectoryError, w)
           | None => (Raise FileNotFoundError, w)
           end.

(** [zip_file.extractall(tmpfile)] into the empty scratch directory: a
    member extracted later replaces one of the same name. *)
Definition extractall (a : directory) : directory :=
  fold_left (fun d e => dir_write (fst e) (snd e) d) a [].

(** Lines 128-129: [open] and [json.load] of [overview.json]; the file
    has to hold exactly one document. *)
Definition load_overview (tmpfile : directory) : result overview_doc :=
  match dir_lookup "overview.json" tmpfile with
  | Some (NFile [DOverview o]) => Ok o
  | Some (NFile _) => Raise JSONDecodeError
  | Some (NDir _) => Raise IsADirectoryError
  | None => Raise FileNotFoundError
  end.

(** Lines 202-203: [overview.json] is truncated and rewritten. *)
Definition dump_overview : py fstate unit :=
  modify (fun st =>
            log (EvWrite "overview.json" (DOverview (overview st)))
              (set_scratch (dir_write "overview.json" (NFile [DOverview (overview st)])) st)).

(** Lines 208-212: [tmpfile.walk()] yields the files; a directory without
    files leaves nothing in the archive. *)
Definition walk_files (d : directory) : directory :=
  List.filter (fun e => match snd e with NDir [] => false | _ => true end) d.

(** [ZipFile(report_min, "w")] followed by the writes and the close. *)
Definition write_zip (p : path) (a : directory) : py world unit :=
  fun w => match w !! p with
           | Some Directory => (Raise IsADirectoryError, w)
           | _ => (Ok tt, <[p := ZipArchive a]> w)
           end.

(** Lines 115-117 *)
Definition make_submissions_dict (submissions : list PyPlagSubmission)
    : gmap string PyPlagSubmission :=
  fold_left (fun d submission => <[id submission := submission]> d) submissions ∅.

(** Lines 127-203, run on the extracted scratch directory: the state it
    ends in, or the exception that leaves the [with] block. *)
Definition sanitize (submissions_dict : gmap string PyPlagSubmission)
    (tmpfile : directory) : result fstate :=
  match load_overview tmpfile with
  | Raise e => Raise e
  | Ok o =>
      match (filter_entries submissions_dict >> dump_overview)%py
              {| scratch := tmpfile; overview := o; trace := [] |} with
      | (Ok _, st) => Ok st
      | (Raise e, _) => Raise e
      end
  end.

(** [PyPlag._post_process_jplag_results] *)
Definition _post_process_jplag_results (report : path)
    (submissions : list PyPlagSubmission) : py world (path * path) :=
  let submissions_dict := make_submissions_dict submissions in
  (let* report_min := lift (with_stem report (stem (path_name report) +:+ ".min")) in
   let* zip_file := open_zip report in
   let* st := lift (sanitize submissions_dict (extractall zip_file)) in
   write_zip report_min (walk_files (scratch st)) >>
   ret (report, report_min))%py.

(** ** [PyPlag.__init__] and [PyPlag.run] *)

Record PyPlag : Type := {
  settings : PyPlagSettings;
  supported_languages : list string;
}.

(** [shutil.rmtree(d)]: [d] and everything below it. *)
Definition rmtree (d : path) : py world unit :=
  fun w => match w !! d with
           | Some Directory => (Ok tt, filter (fun e => ¬ d `prefix_of` fst e) w)
           | Some _ => (Raise NotADirectoryError, w)
           | None => (Raise FileNotFoundError, w)
           end.

(** [PyPlag.__init__] *)
Definition __init__ (settings : PyPlagSettings) : py world PyPlag :=
  (let* w := get in
   (if bool_decide (is_Some (w !! report_dir settings))
    then rmtree (report_dir settings) else ret tt) >>
   ret {| settings := settings;
          supported_languages :=
            ["c"; "cpp"; "csharp"; "emf"; "emf-model"; "go"; "java";
             "javascript"; "kotlin"; "llvmir"; "multi"; "python3"; "rlang";
             "rust"; "scala"; "scheme"; "scxml"; "swift"; "text";
             "typescript"] |})%py.

(** [d.mkdir(exist_ok=True, parents=True)], one component after the other
    below [base]. *)
Fixpoint mkdir_from (base : path) (rest : list string) : py world unit :=
  match rest with
  | [] => ret tt
  | c :: rest' =>
      let p := base ++ [c] in
      bind (fun w => match w !! p with
                     | None => (Ok tt, <[p := Directory]> w)
                     | Some Directory => (Ok tt, w)
                     | Some _ =>
                         (Raise (match rest' with
                                 | [] => FileExistsError
                                 | _ => NotADirectoryError
                                 end), w)
                     end)
           (fun _ => mkdir_from p rest')
  end.

Definition mkdir (d : path) : py world unit := mkdir_from [] d.

(** Lines 64-69: one directory per submission, created without
    [exist_ok], holding the submission's files. *)
Definition stage_submissions (submissions : list PyPlagSubmission)
    : result (gmap string (gmap string string)) :=
  fold_left
    (fun acc submission =>
       match acc with
       | Raise e => Raise e
       | Ok d =>
           match d !! id submission with
           | Some _ => Raise FileExistsError
           | None => Ok (<[id submission := files submission]> d)
           end
       end)
    submissions (Ok ∅).

(** [subprocess.CompletedProcess] *)
Record CompletedProcess : Type := {
  returncode : Z;
  proc_stdout : string;
  proc_stderr : string;
}.

(** The command line of lines 79-91. *)
Record jplag_command : Type := {
  cmd_java : string;
  cmd_jar : path;
  cmd_lang : string;
  cmd_mode : string;
  cmd_report : path;
  cmd_extra_args : list string;
  cmd_submissions_dir : gmap string (gmap string string);
}.

Section Run.

(** The external detector: [subprocess.run] of the command, which may
    write to the file system. *)
Variable subprocess_run : jplag_command -> py world CompletedProcess.

(** [PyPlag.run] *)
Definition run (self : PyPlag) (lang : string)
    (submissions : list PyPlagSubmission) : py world PyPlagReport :=
  ((if negb (bool_decide (lang ∈ supported_languages self))
       && negb (ignore_unsupported_language (settings self))
    then raise (PyPlagException
                  ("Attempted to run JPlag on submissions in unsupported language '"
                   +:+ lang +:+ "'"))
    else ret tt) >>
   mkdir (report_dir (settings self)) >>
   (if (length submissions <=? 1)%nat
    then raise (PyPlagException "Too few submissions")
    else ret tt) >>
   let* submissions_dir := lift (stage_submissions submissions) in
   let extra_args := if clustering (settings self) then [] else ["--cluster-skip"] in
   mkdir (report_dir (settings self)) >>
   let report := report_dir (settings self) ++ [lang +:+ ".jplag"] in
   let* result :=
     subprocess_run {| cmd_java := java_cmd (settings self);
                       cmd_jar := jplag_jar (settings self);
                       cmd_lang := lang;
                       cmd_mode := "RUN";
                       cmd_report := report;
                       cmd_extra_args := extra_args;
                       cmd_submissions_dir := submissions_dir |} in
   let* paths :=
     (if (returncode result =? 0) && filter_runs_by_author (settings self)
      then let* p := _post_process_jplag_results report submissions in
           ret (fst p, Some (snd p))
      else ret (report, None)) in
   ret {| status := returncode result;
          stdout := proc_stdout result;
          stderr := proc_stderr result;
          report_path := fst paths;
          report_min_path := snd paths |})%py.

End Run.

(** ** Notions used to state the properties *)

(** [idx[a][b]], when both keys are there. *)
Definition index_lookup (idx : gmap string (gmap string string)) (a b : string)
    : option string :=
  match idx !! a with
  | Some inner => inner !! b
  | None => None
  end.

(** The index without the direction [a → b]; the dictionary under [a]
    stays, possibly empty. *)
Definition remove_direction (a b : string)
    (idx : gmap string (gmap string string)) : gmap string (gmap string string) :=
  match idx !! a with
  | Some inner => <[a := delete b inner]> idx
  | None => idx
  end.

(** What lines 169-174 leave of the index: nothing is removed when the
    first [del] raises, otherwise the first direction is removed and then
    the second one if it is there. *)
Definition pruned (a b : string)
    (idx : gmap string (gmap string string)) : gmap string (gmap string string) :=
  match index_lookup idx a b with
  | Some _ => remove_direction b a (remove_direction a b idx)
  | None => idx
  end.

(** The descriptor names the unordered pair [{a, b}]. *)
Definition names_pair (comp : descriptor) (a b : string) : Prop :=
  (first_submission comp = a ∧ second_submission comp = b)
  ∨ (first_submission comp = b ∧ second_submission comp = a).

(** An entry name of the form [<a>-<b>] followed by an extension. *)
Definition entry_named (name a b : string) : Prop :=
  stem name = a +:+ String dash b.

(** [floor(x)] of a finite float. *)
Definition float_floor (s : bool) (m : positive) (e : Z) : Z :=
  let v := if s then Z.neg m else Z.pos m in
  match e with
  | Zneg p => v / 2 ^ Z.pos p
  | _ => v * 2 ^ e
  end.

(** [floor(x)] of a number, when it has one. *)
Definition py_floor (x : pynum) : option Z :=
  match x with
  | PyInt z => Some z
  | PyFloat (S754_zero _) => Some 0
  | PyFloat (S754_finite s m e) => Some (float_floor s m e)
  | PyFloat _ => None
  end.

Definition clamp (lo hi x : Z) : Z := Z.max lo (Z.min hi x).

(** The bucket of the specification: [floor(value * 100)] clamped to
    [0, 99], the product being the one Python computes. *)
Definition bucket (value : pynum) : option Z :=
  match py_floor (py_mul_int value 100) with
  | Some k => Some (clamp 0 99 k)
  | None => None
  end.

(** [0 <= value], as Python compares numbers. *)
Definition nonnegative (value : pynum) : Prop :=
  match value with
  | PyInt z => 0 <= z
  | PyFloat f => SFleb (S754_zero false) f = true
  end.

(** The histogram with one count less in bucket [b]. *)
Definition decremented (b : Z) (histogram : list Z) : list Z :=
  alter (fun n => n - 1) (Z.to_nat b) histogram.

(** The state the collision branch leaves when the two histograms become
    [hM'] and [hA']. *)
Definition after_collision (name a b : string) (hM' hA' : list Z) (st : fstate) : fstate :=
  {| scratch := dir_remove name (scratch st);
     overview :=
       {| distributions :=
            <["AVG" := hA']> (<["MAX" := hM']> (distributions (overview st)));
          submission_ids_to_comparison_file_name :=
            pruned a b (submission_ids_to_comparison_file_name (overview st));
          top_comparisons :=
            List.filter (filter_comparison a b) (top_comparisons (overview st));
          overview_rest := overview_rest (overview st) |};
     trace :=
       trace st ++ [EvLoad name;
                    EvWrite name (DComparison (placeholder a b));
                    EvUnlink name] |}.

(** The file does not hold one JSON document: it is empty, holds text
    that is not JSON, or holds more than one document. *)
Definition not_json (c : content) : Prop :=
  match c with
  | [DOverview _] | [DComparison _] => False
  | _ => True
  end.

(** The conditions of the extracted archive that the specification calls
    fatal: no summary document, a summary document that cannot be read, an
    entry whose name does not split in two, an entry that names a
    submission the index does not have. *)
Inductive fatal (submissions_dict : gmap string PyPlagSubmission)
    (tmpfile : directory) : Prop :=
| fatal_overview_missing :
    dir_lookup "overview.json" tmpfile = None → fatal submissions_dict tmpfile
| fatal_overview_unreadable c :
    dir_lookup "overview.json" tmpfile = Some (NFile c) →
    not_json c → fatal submissions_dict tmpfile
| fatal_entry_name name :
    In name (dir_names tmpfile) → name ∉ ignore_files →
    length (split dash (stem name)) ≠ 2%nat → fatal submissions_dict tmpfile
| fatal_unknown_submission name a b :
    In name (dir_names tmpfile) → name ∉ ignore_files →
    split dash (stem name) = [a; b] →
    submissions_dict !! a = None ∨ submissions_dict !! b = None →
    fatal submissions_dict tmpfile.

(** The reading of the design note: the collision branch, on the entry it
    removes, performs no write. *)
Definition deletes_without_overwriting : Prop :=
  ∀ name a b st st',
    remove_collision name a b st = (Ok tt, st') →
    ∃ events, trace st' = trace st ++ events
              ∧ ∀ d, ¬ In (EvWrite name d) events.

(** The index has both directions of every pair it has. *)
Definition index_symmetric (idx : gmap string (gmap string string)) : Prop :=
  ∀ x y, is_Some (index_lookup idx x y) → is_Some (index_lookup idx y x).

(** The entry [name] is the comparison of [x] and [y], in either order. *)
Definition entry_of_pair (name x y : string) : Prop :=
  split dash (stem name) = [x; y] ∨ split dash (stem name) = [y; x].

(** Every pair the index refers to has its entry in the directory. *)
Definition index_consistent (idx : gmap string (gmap string string))
    (d : directory) : Prop :=
  ∀ x y v, index_lookup idx x y = Some v →
           ∃ name, In name (dir_names d) ∧ entry_of_pair name x y.

(** The archive stored at a path, empty when there is none. *)
Definition archive_at (w : world) (p : path) : directory :=
  match w !! p with
  | Some (ZipArchive a) => a
  | _ => []
  end.

(** The summary document of an archive, or [o] when it has none. *)
Definition overview_of (a : directory) (o : overview_doc) : overview_doc :=
  match load_overview a with
  | Ok o' => o'
  | Raise _ => o
  end.

(** What the loop keeps, from the state [st0] it starts in: the index is
    symmetric, it has no reference that [st0] did not have, and it has no
    reference to the pair of an entry that is gone. *)
Definition index_invariant (st0 st : fstate) : Prop :=
  index_symmetric (submission_ids_to_comparison_file_name (overview st))
  ∧ (∀ x y v,
       index_lookup (submission_ids_to_comparison_file_name (overview st)) x y = Some v →
       index_lookup (submission_ids_to_comparison_file_name (overview st0)) x y = Some v)
  ∧ (∀ n x y,
       In n (dir_names (scratch st0)) → ¬ In n (dir_names (scratch st)) →
       entry_of_pair n x y →
       index_lookup (submission_ids_to_comparison_file_name (overview st)) x y = None).

(** A similarity value of the data model: a number of [[0, 1]], in its
    binary64 representation when it is a float. *)
Definition unit_interval (value : pynum) : Prop :=
  match value with
  | PyInt z => 0 <= z <= 1
  | PyFloat f =>
      valid_binary prec emax f = true
      ∧ SFleb (S754_zero false) f = true
      ∧ SFleb f (float_of_Z 1) = true
  end.

(** ** A small report, used to run the definitions *)

(** A histogram of 100 buckets with the given counts, the others zero. *)
Definition histogram_of (counts : list (nat * Z)) : list Z :=
  fold_left (fun h e => <[fst e := snd e]> h) counts (replicate 100 0).

Definition demo_submission (name who : string) : PyPlagSubmission :=
  {| id := name; lang := "python3"; author := who;
     files := {["main.py" := "print(input())"]} |}.

(** Two submissions of one author and one of another. *)
Definition demo_submissions : list PyPlagSubmission :=
  [demo_submission "one" "t1"; demo_submission "two" "t1"; demo_submission "three" "t2"].

Definition demo_record (a b : string) (vmax vavg : pynum) : comparison :=
  {| id1 := a; id2 := b;
     similarities := <["MAX" := vmax]> (<["AVG" := vavg]> ∅);
     matches := ["{}"];
     first_similarity := vmax;
     second_similarity := vavg |}.

Definition one_two : comparison :=
  demo_record "one" "two" (PyFloat (float_of_Z 1)) (PyFloat (float_of_ratio 755 1000)).

Definition one_three : comparison :=
  demo_record "one" "three" (PyFloat (float_of_ratio 29 100)) (PyFloat (float_of_ratio 1 4)).

Definition demo_descriptor (a b : string) : descriptor :=
  {| first_submission := a; second_submission := b; descriptor_rest := "{}" |}.

Definition demo_overview : overview_doc :=
  {| distributions :=
       <["MAX" := histogram_of [(99%nat, 1); (28%nat, 1)]]>
         (<["AVG" := histogram_of [(75%nat, 1); (25%nat, 1)]]>
            (<["MIN" := histogram_of [(50%nat, 1); (20%nat, 1)]]> ∅));
     submission_ids_to_comparison_file_name :=
       <["one" := <["two" := "one-two.json"]> {["three" := "one-three.json"]}]>
         (<["two" := {["one" := "one-two.json"]}]>
            {["three" := {["one" := "one-three.json"]}]});
     top_comparisons := [demo_descriptor "two" "one"; demo_descriptor "one" "three"];
     overview_rest := "{}" |}.

Definition demo_archive : directory :=
  [("options.json", NFile [DText "{}"]);
   ("one-two.json", NFile [DComparison one_two]);
   ("files", NDir [(["one"; "main.py"], "print(input())")]);
   ("overview.json", NFile [DOverview demo_overview]);
   ("one-three.json", NFile [DComparison one_three])].

Definition demo_state : fstate :=
  {| scratch := demo_archive; overview := demo_overview; trace := [] |}.

Definition demo_report : path := ["reports"; "python3.jplag"].

Definition demo_report_min : path := ["reports"; "python3.min.jplag"].

Definition demo_world : world :=
  <[demo_report := ZipArchive demo_archive]> {[ ["reports"] := Directory ]}.

Definition demo_settings : PyPlagSettings :=
  {| java_cmd := "java";
     jplag_jar := ["dependencies"; "jplag.jar"];
     report_dir := ["reports"];
     clustering := true;
     filter_runs_by_author := true;
     ignore_unsupported_language := false |}.

Definition demo_self : PyPlag :=
  {| settings := demo_settings; supported_languages := ["python3"; "java"] |}.

(** A detector that fails without writing a report. *)
Definition failing_detector : jplag_command -> py world CompletedProcess :=
  fun _ w => (Ok {| returncode := 1; proc_stdout := ""; proc_stderr := "no java" |}, w).

(** The report of above with an index that has lost the direction from
    [one] to [two]. *)
Definition lopsided_overview : overview_doc :=
  set_index (fun _ => <["one" := {["three" := "one-three.json"]}]>
                        (<["two" := {["one" := "one-two.json"]}]>
                           {["three" := {["one" := "one-three.json"]}]}))
    demo_overview.

Definition lopsided_archive : directory :=
  dir_write "overview.json" (NFile [DOverview lopsided_overview]) demo_archive.

Definition lopsided_state : fstate :=
  {| scratch := lopsided_archive; overview := lopsided_overview; trace := [] |}.

Definition lopsided_world : world :=
  <[demo_report := ZipArchive lopsided_archive]> {[ ["reports"] := Directory ]}.

(** A file system with a report directory that holds an old report. *)
Definition used_world : world :=
  <[ ["reports"; "java.jplag"] := ZipArchive [] ]>
    (<[ ["reports"] := Directory ]>
       {[ ["dependencies"] := Directory ]}).

(** The run of [main]: two submissions with the same files and the same
    author, and the report that the detector writes for them. *)
Definition main_submissions : list PyPlagSubmission :=
  [demo_submission "one" "t1"; demo_submission "two" "t1"].

Definition main_overview : overview_doc :=
  {| distributions :=
       <["MAX" := histogram_of [(99%nat, 1)]]>
         (<["AVG" := histogram_of [(99%nat, 1)]]> ∅);
     submission_ids_to_comparison_file_name :=
       <["one" := {["two" := "one-two.json"]}]> {["two" := {["one" := "one-two.json"]}]};
     top_comparisons := [demo_descriptor "one" "two"];
     overview_rest := "{}" |}.

Definition main_archive : directory :=
  [("one-two.json",
    NFile [DComparison (demo_record "one" "two" (PyFloat (float_of_Z 1))
                          (PyFloat (float_of_Z 1)))]);
   ("overview.json", NFile [DOverview main_overview]);
   ("options.json", NFile [DText "{}"]);
   ("README.txt", NFile [DText "JPlag"])].

Definition main_world : world :=
  <[demo_report := ZipArchive main_archive]> {[ ["reports"] := Directory ]}.

(** ** The decision of the loop body, and what the pass keeps *)

(** The decision of lines 141-148 on an entry name: the name is not one of
    [ignore_files], it splits into two ids, both are in the dictionary and
    their submissions have the same author. *)
Definition collision (submissions_dict : gmap string PyPlagSubmission)
    (name : string) : bool :=
  negb (bool_decide (name ∈ ignore_files))
  && match unpack2 (split dash (stem name)) with
     | Ok (a, b) =>
         match submissions_dict !! a, submissions_dict !! b with
         | Some submission1, Some submission2 =>
             String.eqb (author submission1) (author submission2)
         | _, _ => false
         end
     | Raise _ => false
     end.



(** The sum of the counts of a histogram. *)
Definition total (histogram : list Z) : Z := fold_right Z.add 0 histogram.

(** The number of collision entries among the names. *)
Definition collisions (submissions_dict : gmap string PyPlagSubmission)
    (names : list string) : Z :=
  Z.of_nat (length (List.filter (collision submissions_dict) names)).


(** One turn of the staging loop of lines 63-69. *)
Definition stage_step (acc : result (gmap string (gmap string string)))
    (submission : PyPlagSubmission) : result (gmap string (gmap string string)) :=
  match acc with
  | Raise e => Raise e
  | Ok d =>
      match d !! id submission with
      | Some _ => Raise FileExistsError
      | None => Ok (<[id submission := files submission]> d)
      end
  end.

(** The defaults of [PyPlagSettings] (settings.py). *)
Definition default_settings : PyPlagSettings :=
  {| java_cmd := "java";
     jplag_jar := ["dependencies"; "jplag.jar"];
     report_dir := ["reports"];
     clustering := true;
     filter_runs_by_author := false;
     ignore_unsupported_language := false |}.

Definition newline : string := String (ascii_of_nat 10) "".
Definition double_quote : string := String (ascii_of_nat 34) "".

(** The text that [main] submits twice (lines 222-231). *)
Definition file : string :=
  newline
  +:+ "        def main() -> None:" +:+ newline
  +:+ "            message: str = f" +:+ double_quote +:+ "Hello, {input()}"
  +:+ double_quote +:+ newline
  +:+ "            times: int = int(input())" +:+ newline
  +:+ "            for i in range(times):" +:+ newline
  +:+ "                print(message)" +:+ newline
  +:+ newline
  +:+ "        if __name__ == " +:+ double_quote +:+ "__main__" +:+ double_quote
  +:+ ":" +:+ newline
  +:+ "            main()" +:+ newline
  +:+ "    ".

Section Main.

Variable subprocess_run : jplag_command -> py world CompletedProcess.

(** [main]: the report it prints is the value returned here. The
    submissions are built positionally, so that [t1] is their language
    and [python3] their author. *)
Definition main : py world PyPlagReport :=
  (let* pyplag :=
     __init__ {| java_cmd := "/usr/lib/jvm/java-21-openjdk/bin/java";
                 jplag_jar := jplag_jar default_settings;
                 report_dir := report_dir default_settings;
                 clustering := clustering default_settings;
                 filter_runs_by_author := true;
                 ignore_unsupported_language :=
                   ignore_unsupported_language default_settings |} in
   run subprocess_run pyplag "python3"
     [ {| id := "one"; lang := "t1"; author := "python3";
          files := {["main.py" := file]} |};
       {| id := "two"; lang := "t1"; author := "python3";
          files := {["main.py" := file]} |} ])%py.

End Main.

(** A detector that writes the report of [main_archive] and succeeds. *)
Definition demo_detector : jplag_command -> py world CompletedProcess :=
  fun cmd w => (Ok {| returncode := 0; proc_stdout := "done"; proc_stderr := "" |},
                <[cmd_report cmd := ZipArchive main_archive]> w).

(** A detector that succeeds without writing a report. *)
Definition silent_detector : jplag_command -> py world CompletedProcess :=
  fun _ w => (Ok {| returncode := 0; proc_stdout := ""; proc_stderr := "" |}, w).

(** A file system without a report directory. *)
Definition new_world : world := {[ ["dependencies"] := Directory ]}.

(** * Properties *)

(** Closes an equation between closed terms by evaluating both sides. *)
Ltac by_computation :=
  match goal with |- ?a = ?b => vm_cast_no_check (@eq_refl _ b) end.

(** ** Facts about [split] *)

Lemma split_nonempty sep s : split sep s ≠ [].
Proof.
  destruct s as [|c s]; simpl; [discriminate|].
  destruct (Ascii.eqb c sep); [discriminate|].
  destruct (split sep s); discriminate.
Qed.

Lemma split_singleton sep s y : split sep s = [y] → y = s.
Proof.
  revert y. induction s as [|c s IH]; simpl; intros y H.
  - congruence.
  - destruct (Ascii.eqb c sep).
    + inversion H as [[H1 H2]]. exfalso. eapply split_nonempty; eauto.
    + destruct (split sep s) as [|h t] eqn:E.
      { exfalso. eapply split_nonempty; eauto. }
      inversion H; subst. f_equal. now apply IH.
Qed.

Lemma split_append_sep_length sep a b :
  (2 <= length (split sep (a +:+ String sep b)))%nat.
Proof.
  induction a as [|c a IH]; simpl.
  - rewrite Ascii.eqb_refl. simpl.
    pose proof (split_nonempty sep b). destruct (split sep b); simpl; [congruence|lia].
  - destruct (Ascii.eqb c sep); simpl; [lia|].
    destruct (split sep (a +:+ String sep b)); simpl in *; lia.
Qed.

Lemma split_pair_inv sep a b x y :
  split sep (a +:+ String sep b) = [x; y] → x = a ∧ y = b.
Proof.
  revert x. induction a as [|c a IH]; simpl; intros x H.
  - rewrite Ascii.eqb_refl in H. inversion H as [[H1 H2]].
    split; [reflexivity|]. now apply split_singleton in H2.
  - destruct (Ascii.eqb c sep).
    + inversion H as [[H1 H2]].
      pose proof (split_append_sep_length sep a b) as L.
      rewrite H2 in L. simpl in L. lia.
    + destruct (split sep (a +:+ String sep b)) as [|h t] eqn:E.
      { exfalso. eapply split_nonempty; eauto. }
      inversion H; subst.
      destruct (IH h eq_refl) as [-> ->]. auto.
Qed.

Lemma split_pair_join sep s x y :
  split sep s = [x; y] → s = x +:+ String sep y.
Proof.
  revert x. induction s as [|c s IH]; simpl; intros x H.
  - discriminate.
  - destruct (Ascii.eqb_spec c sep) as [->|Hne].
    + inversion H as [[H1 H2]]. apply split_singleton in H2. now subst.
    + destruct (split sep s) as [|h t] eqn:E.
      { exfalso. eapply split_nonempty; eauto. }
      inversion H; subst.
      change (String c s = String c (h +:+ String sep y)).
      f_equal. now apply IH.
Qed.

(** ** Sanity checks of the primitives *)

Example split_one_two : split dash "one-two" = ["one"; "two"].
Proof. reflexivity. Qed.

Example split_three : split dash "a-b-c" = ["a"; "b"; "c"].
Proof. reflexivity. Qed.

Example stem_json : stem "one-two.json" = "one-two".
Proof. reflexivity. Qed.

Example stem_two_suffixes : stem "a-b.tar.gz" = "a-b.tar".
Proof. reflexivity. Qed.

Example stem_hidden : stem ".hidden" = ".hidden".
Proof. reflexivity. Qed.

Example stem_trailing_dot : stem "a." = "a.".
Proof. reflexivity. Qed.

Example int_0755 : py_int (py_mul_int (PyFloat (float_of_ratio 755 1000)) 100) = Ok 75.
Proof. vm_compute. reflexivity. Qed.

Example int_029 : py_int (py_mul_int (PyFloat (float_of_ratio 29 100)) 100) = Ok 28.
Proof. vm_compute. reflexivity. Qed.

Example int_one : py_int (py_mul_int (PyFloat (float_of_Z 1)) 100) = Ok 100.
Proof. vm_compute. reflexivity. Qed.

(** ** Running computations of [py] *)

Lemma bind_Ok {S A B} (m : py S A) (k : A → py S B) s b s' :
  bind m k s = (Ok b, s') → ∃ a s1, m s = (Ok a, s1) ∧ k a s1 = (Ok b, s').
Proof.
  unfold bind. destruct (m s) as [[a|e] s1]; [eauto | discriminate].
Qed.

Lemma bind_Raise {S A B} (m : py S A) (k : A → py S B) s e s' :
  m s = (Raise e, s') → bind m k s = (Raise e, s').
Proof. unfold bind. now intros ->. Qed.

Lemma bind_step {S A B} (m : py S A) (k : A → py S B) s a s1 :
  m s = (Ok a, s1) → bind m k s = k a s1.
Proof. unfold bind. now intros ->. Qed.

Lemma lift_Ok {S A} (r : result A) (s s' : S) a :
  lift r s = (Ok a, s') → r = Ok a ∧ s' = s.
Proof. unfold lift. intros [= -> ->]. auto. Qed.

Lemma for_each_app {S A} (l1 l2 : list A) (body : A → py S unit) s :
  for_each (l1 ++ l2) body s =
  bind (for_each l1 body) (fun _ => for_each l2 body) s.
Proof.
  revert s. induction l1 as [|x l1 IH]; intros s; simpl.
  - reflexivity.
  - unfold bind in *. destruct (body x s) as [[[]|e] s1]; [|reflexivity].
    apply IH.
Qed.

(** A property kept by every iteration that returns is kept by a loop
    that returns. *)
Lemma for_each_invariant {S A} (I : S → Prop) (xs : list A) (body : A → py S unit) :
  (∀ x s s', In x xs → I s → body x s = (Ok tt, s') → I s') →
  ∀ s s', I s → for_each xs body s = (Ok tt, s') → I s'.
Proof.
  induction xs as [|x xs IH]; intros Hstep s s' HI H; simpl in H.
  - unfold ret in H. now inversion H; subst.
  - apply bind_Ok in H as ([] & s1 & H1 & H2).
    eapply IH; [| |exact H2].
    + intros; eapply Hstep; eauto. now right.
    + eapply Hstep; eauto. now left.
Qed.

(** A loop that returns has run the iteration of each element. *)
Lemma for_each_reaches {S A} (xs : list A) (body : A → py S unit) x s s' :
  In x xs → for_each xs body s = (Ok tt, s') →
  ∃ l1 l2 s1 s2, xs = l1 ++ x :: l2
    ∧ for_each l1 body s = (Ok tt, s1)
    ∧ body x s1 = (Ok tt, s2)
    ∧ for_each l2 body s2 = (Ok tt, s').
Proof.
  intros Hin H. apply in_split in Hin as (l1 & l2 & ->).
  rewrite for_each_app in H. apply bind_Ok in H as ([] & s1 & H1 & H2).
  simpl in H2. apply bind_Ok in H2 as ([] & s2 & H2 & H3).
  exists l1, l2, s1, s2. auto.
Qed.

(** A loop over a list with an element whose iteration always raises,
    raises. *)
Lemma for_each_raises {S A} (xs : list A) (body : A → py S unit) x :
  In x xs → (∀ s, ∃ e s', body x s = (Raise e, s')) →
  ∀ s, ∃ e s', for_each xs body s = (Raise e, s').
Proof.
  intros Hin Hx. induction xs as [|y xs IH]; [destruct Hin|].
  intros s. simpl. unfold bind.
  destruct (body y s) as [[[]|e] s1] eqn:E; [|eauto].
  destruct Hin as [->|Hin].
  - destruct (Hx s) as (e & s' & He). congruence.
  - apply IH, Hin.
Qed.

(** ** Directories *)

Lemma dir_remove_write name x d :
  dir_remove name (dir_write name x d) = dir_remove name d.
Proof.
  unfold dir_remove. induction d as [|[n y] d IH]; simpl.
  - now rewrite String.eqb_refl.
  - destruct (String.eqb n name) eqn:E; simpl; rewrite E; simpl; [reflexivity|].
    now rewrite IH.
Qed.

Lemma dir_lookup_remove_ne name other d :
  name ≠ other → dir_lookup name (dir_remove other d) = dir_lookup name d.
Proof.
  intros Hne. unfold dir_remove. induction d as [|[n y] d IH]; simpl; [reflexivity|].
  destruct (String.eqb_spec n other) as [->|Hno]; simpl.
  - destruct (String.eqb_spec other name); [congruence|]. exact IH.
  - destruct (String.eqb n name); [reflexivity|]. exact IH.
Qed.

Lemma dir_names_remove name other d :
  In name (dir_names (dir_remove other d)) ↔ In name (dir_names d) ∧ name ≠ other.
Proof.
  unfold dir_names, dir_remove. rewrite !in_map_iff. split.
  - intros ([n y] & <- & Hin). apply filter_In in Hin as [Hin Hne]. simpl in *.
    split; [exists (n, y); auto|].
    destruct (String.eqb_spec n other); [discriminate|assumption].
  - intros [([n y] & <- & Hin) Hne]. exists (n, y). split; [reflexivity|].
    apply filter_In. split; [assumption|]. simpl in *.
    destruct (String.eqb_spec n other); [contradiction|reflexivity].
Qed.

Lemma dir_lookup_write_ne name other x d :
  name ≠ other → dir_lookup name (dir_write other x d) = dir_lookup name d.
Proof.
  intros Hne. induction d as [|[n y] d IH]; simpl.
  - destruct (String.eqb_spec other name); [congruence|reflexivity].
  - destruct (String.eqb_spec n other) as [->|Hno]; simpl.
    + destruct (String.eqb_spec other name); [congruence|reflexivity].
    + destruct (String.eqb n name); [reflexivity|]. exact IH.
Qed.

Lemma dir_lookup_write_eq name x d :
  dir_lookup name (dir_write name x d) = Some x.
Proof.
  induction d as [|[n y] d IH]; simpl.
  - now rewrite String.eqb_refl.
  - destruct (String.eqb n name) eqn:E; simpl; rewrite E; [reflexivity|exact IH].
Qed.

Lemma dir_names_write name other x d :
  In name (dir_names (dir_write other x d)) ↔ name = other ∨ In name (dir_names d).
Proof.
  unfold dir_names. induction d as [|[n y] d IH]; simpl.
  - intuition.
  - destruct (String.eqb_spec n other) as [->|Hno]; simpl; [intuition|].
    rewrite IH. intuition.
Qed.

Lemma dir_lookup_names name d :
  In name (dir_names d) ↔ is_Some (dir_lookup name d).
Proof.
  unfold dir_names. induction d as [|[n y] d IH]; simpl.
  - split; [intros []|intros [? [=]]].
  - destruct (String.eqb_spec n name) as [->|Hne].
    + split; eauto.
    + rewrite <- IH. intuition.
Qed.

Lemma dir_lookup_walk_files name c d :
  dir_lookup name d = Some (NFile c) → dir_lookup name (walk_files d) = Some (NFile c).
Proof.
  unfold walk_files. induction d as [|[n y] d IH]; simpl; [discriminate|].
  destruct (String.eqb n name) eqn:E.
  - intros [= ->]. simpl. now rewrite E.
  - intros H. destruct y as [?|[|? ?]]; simpl; rewrite ?E; auto.
Qed.

Lemma dir_names_walk_files name d :
  In name (dir_names (walk_files d)) → In name (dir_names d).
Proof.
  unfold dir_names, walk_files. rewrite !in_map_iff.
  intros (e & <- & Hin). apply filter_In in Hin as [Hin _]. eauto.
Qed.

(** ** The statements of the loop body, one by one *)

Lemma set_index_ext f g o :
  f (submission_ids_to_comparison_file_name o) = g (submission_ids_to_comparison_file_name o) →
  set_index f o = set_index g o.
Proof. unfold set_index. now intros ->. Qed.

Lemma set_overview_index_id f st :
  f (submission_ids_to_comparison_file_name (overview st))
  = submission_ids_to_comparison_file_name (overview st) →
  set_overview (set_index f) st = st.
Proof.
  destruct st as [sc [d i t r] tr]. unfold set_overview, set_index. simpl.
  now intros ->.
Qed.

(** Lines 169-174 never raise, and leave the index [pruned]. *)
Lemma prune_index_eq a b st :
  prune_index a b st = (Ok tt, set_overview (set_index (pruned a b)) st).
Proof.
  unfold prune_index, try_except_KeyError, bind, del_index.
  destruct (submission_ids_to_comparison_file_name (overview st) !! a)
    as [inner|] eqn:Ha.
  2: { rewrite set_overview_index_id; [reflexivity|].
       unfold pruned, index_lookup. now rewrite Ha. }
  destruct (inner !! b) as [v|] eqn:Hb.
  2: { rewrite set_overview_index_id; [reflexivity|].
       unfold pruned, index_lookup. now rewrite Ha, Hb. }
  destruct st as [sc [d i t r] tr]. simpl in *.
  assert (Hp : pruned a b i = remove_direction b a (<[a:=delete b inner]> i)).
  { unfold pruned, index_lookup. rewrite Ha, Hb.
    unfold remove_direction at 2. now rewrite Ha. }
  unfold set_overview, set_index. simpl. rewrite Hp. unfold remove_direction.
  destruct (<[a:=delete b inner]> i !! b) as [inner2|] eqn:Hb2; [|reflexivity].
  destruct (inner2 !! a) as [v2|] eqn:Ha2; [reflexivity|].
  rewrite (delete_id inner2 a Ha2). now rewrite (insert_id _ _ _ Hb2).
Qed.

Lemma correct_distribution_Ok file_data metric st st' :
  correct_distribution file_data metric st = (Ok tt, st') →
  ∃ histogram value i histogram',
    distributions (overview st) !! metric = Some histogram
    ∧ similarities file_data !! metric = Some value
    ∧ bucket_index value = Ok i
    ∧ list_decrement histogram i = Ok histogram'
    ∧ st' = set_overview (set_distributions <[metric := histogram']>) st.
Proof.
  unfold correct_distribution. intros H.
  apply bind_Ok in H as (s0 & s1 & Hget & H). inversion Hget; subst s0 s1.
  apply bind_Ok in H as (h & s1 & H1 & H). apply lift_Ok in H1 as [H1 ->].
  apply bind_Ok in H as (v & s1 & H2 & H). apply lift_Ok in H2 as [H2 ->].
  apply bind_Ok in H as (i & s1 & H3 & H). apply lift_Ok in H3 as [H3 ->].
  apply bind_Ok in H as (h' & s1 & H4 & H). apply lift_Ok in H4 as [H4 ->].
  unfold modify in H. inversion H; subst st'.
  unfold dict_get in H1, H2.
  destruct (distributions (overview st) !! metric) as [h0|]; [|discriminate].
  destruct (similarities file_data !! metric) as [v0|]; [|discriminate].
  inversion H1; inversion H2; subst. exists h, v, i, h'. auto.
Qed.

(** The collision branch, when it returns: what it read and the state
    it leaves. *)
Lemma remove_collision_Ok name a b st st' :
  remove_collision name a b st = (Ok tt, st') →
  ∃ r hM vM iM hM' hA vA iA hA',
    dir_lookup name (scratch st) = Some (NFile [DComparison r])
    ∧ distributions (overview st) !! "MAX" = Some hM
    ∧ similarities r !! "MAX" = Some vM
    ∧ bucket_index vM = Ok iM
    ∧ list_decrement hM iM = Ok hM'
    ∧ distributions (overview st) !! "AVG" = Some hA
    ∧ similarities r !! "AVG" = Some vA
    ∧ bucket_index vA = Ok iA
    ∧ list_decrement hA iA = Ok hA'
    ∧ st' = after_collision name a b hM' hA' st.
Proof.
  unfold remove_collision. intros H.
  apply bind_Ok in H as (c & s1 & Hopen & H).
  unfold open_rw in Hopen.
  destruct (dir_lookup name (scratch st)) as [[c0|?]|] eqn:Hlook; try discriminate.
  inversion Hopen; subst c0 s1. clear Hopen.
  apply bind_Ok in H as (r & s1 & Hload & H).
  unfold json_load_comparison in Hload.
  destruct c as [|[?|r0|?] [|? ?]]; try discriminate.
  inversion Hload; subst r0 s1. clear Hload.
  apply bind_Ok in H as ([] & s1 & Hwrite & H).
  unfold file_write, modify in Hwrite. inversion Hwrite; subst s1. clear Hwrite.
  apply bind_Ok in H as ([] & s1 & Hunlink & H).
  unfold unlink in Hunlink. simpl in Hunlink.
  rewrite dir_lookup_write_eq in Hunlink. inversion Hunlink; subst s1. clear Hunlink.
  apply bind_Ok in H as ([] & s1 & Hprune & H).
  rewrite prune_index_eq in Hprune. inversion Hprune; subst s1. clear Hprune.
  apply bind_Ok in H as ([] & s1 & Hdist & H).
  simpl in Hdist.
  apply bind_Ok in Hdist as ([] & s2 & HM & Hdist).
  apply bind_Ok in Hdist as ([] & s3 & HA & Hdist).
  unfold ret in Hdist. inversion Hdist; subst s3. clear Hdist.
  apply correct_distribution_Ok in HM as (hM & vM & iM & hM' & HM1 & HM2 & HM3 & HM4 & ->).
  apply correct_distribution_Ok in HA as (hA & vA & iA & hA' & HA1 & HA2 & HA3 & HA4 & ->).
  unfold modify in H. inversion H; subst st'. clear H.
  simpl in HM1, HA1.
  rewrite lookup_insert_ne in HA1 by discriminate.
  exists r, hM, vM, iM, hM', hA, vA, iA, hA'.
  repeat (split; [first [assumption | reflexivity]|]).
  unfold after_collision, set_overview, set_top_comparisons, set_distributions,
    set_index, set_scratch, log.
  simpl. rewrite dir_remove_write. rewrite <- !app_assoc. reflexivity.
Qed.

Lemma ignore_files_split name :
  name ∈ ignore_files → length (split dash (stem name)) = 1%nat.
Proof.
  unfold ignore_files. rewrite !elem_of_cons, elem_of_nil.
  intros [->|[->|[->|[->|[->|[->|[]]]]]]]; reflexivity.
Qed.

(** The loop body, when it returns. *)
Lemma process_entry_Ok submissions_dict name st st' :
  process_entry submissions_dict name st = (Ok tt, st') →
  (name ∈ ignore_files ∧ st' = st)
  ∨ ((name ∉ ignore_files)
     ∧ (∃ a b s1 s2,
         split dash (stem name) = [a; b]
         ∧ submissions_dict !! a = Some s1
         ∧ submissions_dict !! b = Some s2
         ∧ ((author s1 ≠ author s2 ∧ st' = st)
            ∨ (author s1 = author s2 ∧ remove_collision name a b st = (Ok tt, st'))))).
Proof.
  unfold process_entry. case_bool_decide as Hign.
  - intros [= ->]. auto.
  - intros H. right. split; [assumption|].
    apply bind_Ok in H as ([a b] & s0 & H1 & H). apply lift_Ok in H1 as [H1 ->].
    apply bind_Ok in H as (s1 & s0 & H2 & H). apply lift_Ok in H2 as [H2 ->].
    apply bind_Ok in H as (s2 & s0 & H3 & H). apply lift_Ok in H3 as [H3 ->].
    simpl in *.
    unfold unpack2 in H1.
    destruct (split dash (stem name)) as [|x [|y [|? ?]]]; try discriminate.
    inversion H1; subst x y.
    unfold dict_get in H2, H3.
    destruct (submissions_dict !! a) as [s1'|] eqn:Ea; [|discriminate].
    destruct (submissions_dict !! b) as [s2'|] eqn:Eb; [|discriminate].
    inversion H2; inversion H3; subst.
    exists a, b, s1, s2. do 3 (split; [first [reflexivity | assumption]|]).
    destruct (String.eqb_spec (author s1) (author s2)) as [Heq|Hne].
    + right. auto.
    + left. inversion H. auto.
Qed.

(** Replaces the state that a returned collision branch left by
    [after_collision] of the state it started from. *)
Ltac collision_state H :=
  apply remove_collision_Ok in H
    as (? & ? & ? & ? & ? & ? & ? & ? & ? & _ & _ & _ & _ & _ & _ & _ & _ & _ & ->).

(** ** The bucket of a similarity value *)

Lemma float_of_Z_100 :
  float_of_Z 100 = S754_finite false 7036874417766400 (-46).
Proof. vm_compute. reflexivity. Qed.

(** Rounding keeps the sign it is given. *)
Lemma binary_round_aux_sign s mx ex lx :
  match binary_round_aux prec emax s mx ex lx with
  | S754_zero s' | S754_infinity s' | S754_finite s' _ _ => s' = s
  | S754_nan => True
  end.
Proof.
  unfold binary_round_aux.
  destruct (shr_fexp prec emax mx ex lx) as [mrs' e'].
  destruct (shr_fexp prec emax _ e' loc_Exact) as [mrs'' e''].
  destruct (shr_m mrs''); [reflexivity| |exact I].
  destruct (Z.leb e'' (Z.sub emax prec)); reflexivity.
Qed.

Lemma float_trunc_nonnegative m e : 0 <= float_trunc false m e.
Proof.
  unfold float_trunc. destruct e as [|p|p].
  - lia.
  - apply Z.mul_nonneg_nonneg; [lia|]. apply Z.pow_nonneg. lia.
  - apply Z.div_pos; [lia|]. apply Z.pow_pos_nonneg; lia.
Qed.

Lemma float_floor_trunc m e : float_floor false m e = float_trunc false m e.
Proof. unfold float_floor, float_trunc. destruct e; reflexivity. Qed.

(** On a value that is not negative, and whose product with 100 is a
    number, the index the code computes and the bucket of the
    specification are the same. *)
Lemma bucket_index_bucket value :
  nonnegative value →
  match bucket value with
  | Some k => bucket_index value = Ok k ∧ 0 <= k <= 99
  | None => ∃ e, bucket_index value = Raise e
  end.
Proof.
  unfold bucket, bucket_index, clamp, SIMILARITY_DISTRIBUTION_SIZE, nonnegative.
  destruct value as [z|f]; cbn [py_mul_int py_floor py_int].
  - intros Hz. split; [f_equal|]; lia.
  - rewrite float_of_Z_100. intros Hf.
    destruct f as [s|s| |s m e]; cbn [SFmul xorb py_floor py_int].
    + split; [reflexivity|lia].
    + destruct s; [discriminate|]. eauto.
    + discriminate.
    + destruct s; [discriminate|]. cbn [xorb].
      pose proof (binary_round_aux_sign false
                    (Z.pos (m * 7036874417766400)) (e + -46) loc_Exact) as Hs.
      destruct (binary_round_aux prec emax false _ _ loc_Exact) as [s'|s'| |s' m' e'];
        cbn [py_floor py_int]; eauto.
      * split; [reflexivity|lia].
      * subst s'. rewrite float_floor_trunc.
        pose proof (float_trunc_nonnegative m' e').
        split; [f_equal|]; lia.
Qed.

(** [l[i] -= 1] at an index within the list. *)
Lemma list_decrement_within (l : list Z) i :
  0 <= i < Z.of_nat (length l) → list_decrement l i = Ok (decremented i l).
Proof.
  intros Hi. unfold list_decrement, py_index, decremented.
  destruct (Z.leb_spec 0 i); [|lia]. destruct (Z.ltb_spec i (Z.of_nat (length l))); [|lia].
  simpl. destruct (l !! Z.to_nat i) as [v|] eqn:E.
  - f_equal. apply list_eq. intros j.
    rewrite list_lookup_alter. case_decide as Hj.
    + subst j. rewrite E. simpl. apply list_lookup_insert_eq.
      apply lookup_lt_Some in E. exact E.
    + now apply list_lookup_insert_ne.
  - apply lookup_ge_None in E. lia.
Qed.

(** The collision branch returns when the file holds one comparison
    record and each of its four partial steps has a result. *)
Lemma remove_collision_returns name a b st r hM vM iM hM' hA vA iA hA' :
  dir_lookup name (scratch st) = Some (NFile [DComparison r]) →
  distributions (overview st) !! "MAX" = Some hM →
  similarities r !! "MAX" = Some vM →
  bucket_index vM = Ok iM →
  list_decrement hM iM = Ok hM' →
  distributions (overview st) !! "AVG" = Some hA →
  similarities r !! "AVG" = Some vA →
  bucket_index vA = Ok iA →
  list_decrement hA iA = Ok hA' →
  remove_collision name a b st = (Ok tt, after_collision name a b hM' hA' st).
Proof.
  intros Hfile HM1 HM2 HM3 HM4 HA1 HA2 HA3 HA4.
  unfold remove_collision.
  erewrite bind_step by (unfold open_rw; rewrite Hfile; reflexivity).
  erewrite bind_step by reflexivity.
  erewrite bind_step by reflexivity.
  erewrite bind_step
    by (unfold unlink; simpl; rewrite dir_lookup_write_eq; reflexivity).
  erewrite bind_step by apply prune_index_eq.
  simpl for_each.
  erewrite bind_step.
  2: { erewrite bind_step.
       2: { unfold correct_distribution, bind, get, lift, dict_get, modify. simpl.
            rewrite HM1, HM2, HM3, HM4. reflexivity. }
       erewrite bind_step.
       2: { unfold correct_distribution, bind, get, lift, dict_get, modify. simpl.
            rewrite lookup_insert_ne by discriminate.
            rewrite HA1, HA2, HA3, HA4. reflexivity. }
       reflexivity. }
  unfold modify, after_collision, set_overview, set_top_comparisons, set_distributions,
    set_index, set_scratch, log.
  simpl. rewrite dir_remove_write. rewrite <- !app_assoc. reflexivity.
Qed.

(** ** A value of the unit interval has a bucket *)

Lemma digits2_pos_size p : digits2_pos p = Pos.size p.
Proof. induction p; simpl; congruence. Qed.

Lemma digits2_pos_upper p : Z.pos p < 2 ^ Z.pos (digits2_pos p).
Proof.
  rewrite digits2_pos_size. pose proof (Pos.size_gt p) as H.
  apply Pos2Z.pos_lt_pos in H. now rewrite Pos2Z.inj_pow in H.
Qed.

Lemma digits2_pos_lower p : 2 ^ Z.pos (digits2_pos p) <= 2 * Z.pos p.
Proof.
  rewrite digits2_pos_size. pose proof (Pos.size_le p) as H.
  apply Pos2Z.pos_le_pos in H. now rewrite Pos2Z.inj_pow in H.
Qed.

(** A positive number below [2 ^ n] has at most [n] binary digits. *)
Lemma digits2_pos_le p n : 0 <= n → Z.pos p < 2 ^ n → Z.pos (digits2_pos p) <= n.
Proof.
  intros Hn Hp. destruct (Z.le_gt_cases (Z.pos (digits2_pos p)) n) as [|Hgt]; [assumption|].
  exfalso. pose proof (digits2_pos_lower p) as Hl.
  assert (2 ^ (n + 1) <= 2 ^ Z.pos (digits2_pos p)) by (apply Z.pow_le_mono_r; lia).
  rewrite Z.pow_add_r in H by lia. lia.
Qed.

Lemma Zdigits2_le m n : 0 <= m → 0 <= n → m < 2 ^ n → Zdigits2 m <= n.
Proof.
  intros Hm Hn Hlt. destruct m as [|p|p]; simpl; [assumption| |lia].
  now apply digits2_pos_le.
Qed.

Lemma shr_1_bounds mrs : 0 <= shr_m mrs → 0 <= shr_m (shr_1 mrs) <= shr_m mrs.
Proof. destruct mrs as [[|[p|p|]|p] r s]; simpl; lia. Qed.

Lemma iter_shr_1_bounds p mrs :
  0 <= shr_m mrs → 0 <= shr_m (SpecFloat.iter_pos shr_1 p mrs) <= shr_m mrs.
Proof.
  revert mrs. induction p as [p IH|p IH|]; intros mrs H; simpl.
  - pose proof (shr_1_bounds mrs H) as H1.
    pose proof (IH _ (proj1 H1)) as H2. pose proof (IH _ (proj1 H2)). lia.
  - pose proof (IH _ H) as H1. pose proof (IH _ (proj1 H1)). lia.
  - now apply shr_1_bounds.
Qed.

Lemma shr_m_of_loc m l : shr_m (shr_record_of_loc m l) = m.
Proof. destruct l as [|[| |]]; reflexivity. Qed.

(** Shifting to the exponent of the format keeps the mantissa between 0
    and what it was, and ends at the larger of the two exponents. *)
Lemma shr_fexp_bounds m e l :
  0 <= m →
  0 <= shr_m (fst (shr_fexp prec emax m e l)) <= m
  ∧ snd (shr_fexp prec emax m e l) = Z.max e (fexp prec emax (Zdigits2 m + e)).
Proof.
  intros Hm. unfold shr_fexp, shr.
  destruct (fexp prec emax (Zdigits2 m + e) - e) as [|p|p] eqn:E; simpl.
  - rewrite shr_m_of_loc. lia.
  - pose proof (iter_shr_1_bounds p (shr_record_of_loc m l)) as H.
    rewrite shr_m_of_loc in H. split; [auto|]. lia.
  - rewrite shr_m_of_loc. lia.
Qed.

Lemma round_nearest_even_bounds m l :
  m <= round_nearest_even m l <= m + 1.
Proof.
  unfold round_nearest_even. destruct l as [|[| |]]; try lia.
  destruct (Z.even m); lia.
Qed.

(** Rounding a positive mantissa of at most 106 digits at an exponent of
    at most -98 neither overflows nor yields a NaN. *)
Lemma binary_round_aux_finite s p ex :
  Z.pos (digits2_pos p) <= 106 → ex <= -98 →
  match binary_round_aux prec emax s (Z.pos p) ex loc_Exact with
  | S754_zero _ | S754_finite _ _ _ => True
  | _ => False
  end.
Proof.
  intros Hd Hex. unfold binary_round_aux.
  pose proof (shr_fexp_bounds (Z.pos p) ex loc_Exact ltac:(lia)) as [Hm1 He1].
  destruct (shr_fexp prec emax (Z.pos p) ex loc_Exact) as [mrs' e'].
  simpl in Hm1, He1.
  pose proof (round_nearest_even_bounds (shr_m mrs') (loc_of_shr_record mrs')) as Hr.
  set (m1 := round_nearest_even (shr_m mrs') (loc_of_shr_record mrs')) in *.
  assert (Hm1' : 0 <= m1) by lia.
  pose proof (shr_fexp_bounds m1 e' loc_Exact Hm1') as [Hm2 He2].
  destruct (shr_fexp prec emax m1 e' loc_Exact) as [mrs'' e''].
  simpl in Hm2, He2.
  assert (Hd1 : Zdigits2 m1 <= 107).
  { apply Zdigits2_le; [lia|lia|].
    pose proof (digits2_pos_upper p) as Hu.
    assert (2 ^ Z.pos (digits2_pos p) <= 2 ^ 106) by (apply Z.pow_le_mono_r; lia).
    replace (2 ^ 107) with (2 * 2 ^ 106) by reflexivity. lia. }
  assert (He' : e' <= -45).
  { subst e'. unfold fexp, emin, prec, emax. simpl Zdigits2. lia. }
  assert (He'' : e'' <= 9).
  { subst e''. unfold fexp, emin, prec, emax. lia. }
  destruct (shr_m mrs'') as [|q|q]; [exact I| |lia].
  destruct (Z.leb_spec e'' (emax - prec)) as [|Hgt]; [exact I|].
  unfold emax, prec in Hgt. lia.
Qed.

Lemma digits2_pos_mul p q :
  Z.pos (digits2_pos (p * q)) <= Z.pos (digits2_pos p) + Z.pos (digits2_pos q).
Proof.
  apply digits2_pos_le; [lia|].
  rewrite Z.pow_add_r by lia. rewrite Pos2Z.inj_mul.
  pose proof (digits2_pos_upper p). pose proof (digits2_pos_upper q).
  apply Z.mul_lt_mono_nonneg; lia.
Qed.

Lemma float_of_Z_1 : float_of_Z 1 = S754_finite false 4503599627370496 (-52).
Proof. vm_compute. reflexivity. Qed.

Lemma digits2_pos_100 : Z.pos (digits2_pos 7036874417766400) = 53.
Proof. vm_compute. reflexivity. Qed.

(** A value of the unit interval, a binary64 number when it is a float,
    has a bucket. *)
Lemma unit_interval_bucket value :
  unit_interval value → nonnegative value ∧ ∃ k, bucket value = Some k.
Proof.
  unfold unit_interval, nonnegative. destruct value as [z|f].
  - intros Hz. split; [lia|]. unfold bucket. cbn [py_mul_int py_floor]. eauto.
  - rewrite float_of_Z_1. intros (Hvalid & H0 & H1). split; [assumption|].
    unfold bucket. cbn [py_mul_int]. rewrite float_of_Z_100.
    destruct f as [s|s| |s m e]; cbn [SFmul py_floor]; eauto; try discriminate.
    { destruct s; discriminate. }
    destruct s; [discriminate|]. cbn [xorb].
    assert (Hd : Z.pos (digits2_pos m) <= 53).
    { cbn [valid_binary] in Hvalid. unfold bounded, canonical_mantissa in Hvalid.
      apply andb_true_iff in Hvalid as [Hc _]. apply Z.eqb_eq in Hc.
      unfold fexp, emin, prec, emax in Hc. lia. }
    assert (He : e <= -52).
    { unfold SFleb, SFcompare in H1.
      destruct (Z.compare_spec e (-52)); try discriminate; lia. }
    pose proof (digits2_pos_mul m 7036874417766400) as Hmul.
    rewrite digits2_pos_100 in Hmul.
    pose proof (binary_round_aux_finite false (m * 7036874417766400) (e + -46)
                  ltac:(lia) ltac:(lia)) as Hfin.
    destruct (binary_round_aux prec emax false _ _ loc_Exact); cbn [py_floor]; eauto;
      contradiction.
Qed.

(** ** C1: the histograms are corrected from the values read *)

(** C1. When a comparison record is removed as a collision, the filter
    loads the record first ([EvLoad] precedes the write of the placeholder
    and the deletion), and the values [vM] and [vA] that the record held
    then decide the correction: for each of MAX and AVG the count of the
    bucket [floor(value * 100)] clamped to [0, 99] goes down by one,
    every other bucket and every other metric stay as they were. A MAX of
    0.755 selects bucket 75, a MAX of 1.0 bucket 99. The record and the
    overview are those of the data model: similarity values of [0, 1] and
    histograms of 100 buckets. *)
Theorem collision_decrements_buckets name a b st r vM vA hM hA :
  dir_lookup name (scratch st) = Some (NFile [DComparison r]) →
  similarities r !! "MAX" = Some vM →
  similarities r !! "AVG" = Some vA →
  unit_interval vM → unit_interval vA →
  distributions (overview st) !! "MAX" = Some hM →
  distributions (overview st) !! "AVG" = Some hA →
  length hM = 100%nat → length hA = 100%nat →
  ∃ st' bM bA,
    remove_collision name a b st = (Ok tt, st')
    ∧ trace st' = trace st ++ [EvLoad name;
                               EvWrite name (DComparison (placeholder a b));
                               EvUnlink name]
    ∧ bucket vM = Some bM ∧ bucket vA = Some bA
    ∧ 0 <= bM <= 99 ∧ 0 <= bA <= 99
    ∧ distributions (overview st') !! "MAX" = Some (decremented bM hM)
    ∧ distributions (overview st') !! "AVG" = Some (decremented bA hA)
    ∧ (∀ i : nat, decremented bM hM !! i
                  = if decide (i = Z.to_nat bM) then (fun n => n - 1) <$> hM !! i
                    else hM !! i)
    ∧ (∀ i : nat, decremented bA hA !! i
                  = if decide (i = Z.to_nat bA) then (fun n => n - 1) <$> hA !! i
                    else hA !! i)
    ∧ (∀ metric, metric ≠ "MAX" → metric ≠ "AVG" →
         distributions (overview st') !! metric = distributions (overview st) !! metric)
    ∧ (vM = PyFloat (float_of_ratio 755 1000) → bM = 75)
    ∧ (vM = PyFloat (float_of_Z 1) → bM = 99).
Proof.
  intros Hfile HvM HvA HuM HuA HhM HhA HlM HlA.
  apply unit_interval_bucket in HuM as (HnM & bM & HbM).
  apply unit_interval_bucket in HuA as (HnA & bA & HbA).
  pose proof (bucket_index_bucket vM HnM) as HM. rewrite HbM in HM.
  pose proof (bucket_index_bucket vA HnA) as HA. rewrite HbA in HA.
  destruct HM as [HiM HrM], HA as [HiA HrA].
  exists (after_collision name a b (decremented bM hM) (decremented bA hA) st), bM, bA.
  split.
  { eapply remove_collision_returns; eauto; apply list_decrement_within; lia. }
  split; [reflexivity|].
  do 4 (split; [assumption|]).
  split. { simpl. now rewrite lookup_insert_ne, lookup_insert_eq by discriminate. }
  split. { simpl. now rewrite lookup_insert_eq. }
  split.
  { intros i. unfold decremented. rewrite list_lookup_alter.
    repeat case_decide; subst; congruence. }
  split.
  { intros i. unfold decremented. rewrite list_lookup_alter.
    repeat case_decide; subst; congruence. }
  split.
  { intros metric H1 H2. simpl. now rewrite !lookup_insert_ne by congruence. }
  split; intros ->; vm_compute in HbM; congruence.
Qed.

Lemma collision_decrements_buckets_witness :
  ∃ st',
    remove_collision "one-two.json" "one" "two" demo_state = (Ok tt, st')
    ∧ distributions (overview st') !! "MAX"
      = Some (decremented 99 (histogram_of [(99%nat, 1); (28%nat, 1)]))
    ∧ distributions (overview st') !! "AVG"
      = Some (decremented 75 (histogram_of [(75%nat, 1); (25%nat, 1)])).
Proof.
  destruct (collision_decrements_buckets "one-two.json" "one" "two" demo_state one_two
              (PyFloat (float_of_Z 1)) (PyFloat (float_of_ratio 755 1000))
              (histogram_of [(99%nat, 1); (28%nat, 1)])
              (histogram_of [(75%nat, 1); (25%nat, 1)]))
    as (st' & bM & bA & Hrun & _ & HbM & HbA & _ & _ & HM & HA & _);
    try by_computation; try (vm_compute; repeat split; reflexivity).
  assert (bM = 99) as -> by (vm_compute in HbM; congruence).
  assert (bA = 75) as -> by (vm_compute in HbA; congruence).
  exists st'. auto.
Defined.

(** Outside the data model the two part: a negative value is not clamped
    from below, its index counts from the end of the histogram. *)
Remark negative_value_counts_from_the_end :
  bucket (PyFloat (float_of_ratio (-1) 2)) = Some 0
  ∧ bucket_index (PyFloat (float_of_ratio (-1) 2)) = Ok (-50)
  ∧ list_decrement (replicate 100 7) (-50) = Ok (<[50%nat := 6]> (replicate 100 7)).
Proof. repeat split; by_computation. Qed.

(** ** C2 and C3: pruning the pairwise index *)

Lemma index_lookup_remove_direction a b idx x y :
  index_lookup (remove_direction a b idx) x y
  = if decide (x = a ∧ y = b) then None else index_lookup idx x y.
Proof.
  unfold remove_direction, index_lookup.
  destruct (idx !! a) as [inner|] eqn:Ha.
  - destruct (decide (x = a)) as [->|Hx].
    + rewrite lookup_insert_eq, Ha.
      destruct (decide (y = b)) as [->|Hy].
      * rewrite lookup_delete_eq. now rewrite decide_True.
      * rewrite lookup_delete_ne by congruence. rewrite decide_False; tauto.
    + rewrite lookup_insert_ne by congruence. rewrite decide_False; tauto.
  - case_decide as H; [|reflexivity]. destruct H as [-> ->]. now rewrite Ha.
Qed.

(** When the first direction is there, both directions are gone
    afterwards. *)
Lemma pruned_first_present a b idx v :
  index_lookup idx a b = Some v →
  index_lookup (pruned a b idx) a b = None ∧ index_lookup (pruned a b idx) b a = None.
Proof.
  intros H. unfold pruned. rewrite H.
  rewrite !index_lookup_remove_direction.
  split; repeat case_decide; tauto.
Qed.

(** When the first direction is missing, the first [del] raises and the
    second one is not reached: the index is left as it is. *)
Lemma pruned_first_missing a b idx :
  index_lookup idx a b = None → pruned a b idx = idx.
Proof. intros H. unfold pruned. now rewrite H. Qed.

(** When only the second direction is missing, the first one is still
    removed. *)
Lemma pruned_second_missing a b idx v :
  index_lookup idx a b = Some v → index_lookup idx b a = None →
  pruned a b idx = remove_direction a b idx.
Proof.
  intros H1 H2. unfold pruned. rewrite H1.
  assert (H3 : index_lookup (remove_direction a b idx) b a = None).
  { rewrite index_lookup_remove_direction. case_decide; auto. }
  unfold remove_direction at 1. unfold index_lookup in H3.
  destruct (remove_direction a b idx !! b) as [inner|] eqn:E; [|reflexivity].
  rewrite (delete_id inner a H3). now apply insert_id.
Qed.

(** Other pairs keep their references, and nothing is ever added. *)
Lemma pruned_other a b idx x y :
  ¬ (x = a ∧ y = b) → ¬ (x = b ∧ y = a) →
  index_lookup (pruned a b idx) x y = index_lookup idx x y.
Proof.
  intros H1 H2. unfold pruned. destruct (index_lookup idx a b); [|reflexivity].
  rewrite !index_lookup_remove_direction. now rewrite !decide_False.
Qed.

Lemma pruned_sub a b idx x y v :
  index_lookup (pruned a b idx) x y = Some v → index_lookup idx x y = Some v.
Proof.
  unfold pruned. destruct (index_lookup idx a b); [|auto].
  rewrite !index_lookup_remove_direction. repeat case_decide; congruence.
Qed.

(** C2, at the input where the claim and the code part. The index of the
    report has lost the direction from [one] to [two] and still has the
    one from [two] to [one]. The collision branch on [one-two.json]
    returns and deletes the entry, but the first [del] raises [KeyError],
    which ends the [try] block before the second [del]: the reference from
    [two] to [one] is still in the index afterwards. *)
Theorem reverse_direction_survives :
  ∃ st',
    remove_collision "one-two.json" "one" "two" lopsided_state = (Ok tt, st')
    ∧ index_lookup (submission_ids_to_comparison_file_name (overview lopsided_state))
        "one" "two" = None
    ∧ index_lookup (submission_ids_to_comparison_file_name (overview lopsided_state))
        "two" "one" = Some "one-two.json"
    ∧ dir_lookup "one-two.json" (scratch st') = None
    ∧ index_lookup (submission_ids_to_comparison_file_name (overview st'))
        "two" "one" = Some "one-two.json".
Proof.
  exists (snd (remove_collision "one-two.json" "one" "two" lopsided_state)).
  repeat split; by_computation.
Qed.

(** C3, at the same input, for the whole pass: the archive written at the
    minimized path has no entry for the pair of [one] and [two], and the
    index of its summary document still refers to that pair under
    [two]. *)
Theorem dangling_reference_survives :
  ∃ w' out o',
    _post_process_jplag_results demo_report demo_submissions lopsided_world
    = (Ok (demo_report, demo_report_min), w')
    ∧ w' !! demo_report_min = Some (ZipArchive out)
    ∧ load_overview out = Ok o'
    ∧ dir_names out = ["options.json"; "files"; "overview.json"; "one-three.json"]
    ∧ index_lookup (submission_ids_to_comparison_file_name o') "two" "one"
      = Some "one-two.json".
Proof.
  pose (w' := snd (_post_process_jplag_results demo_report demo_submissions
                     lopsided_world)).
  exists w', (archive_at w' demo_report_min),
    (overview_of (archive_at w' demo_report_min) demo_overview).
  repeat split; by_computation.
Qed.

(** ** The whole pass, when it returns *)

Lemma post_process_Ok report submissions w paths w' :
  _post_process_jplag_results report submissions w = (Ok paths, w') →
  ∃ report_min a st,
    with_stem report (stem (path_name report) +:+ ".min") = Ok report_min
    ∧ w !! report = Some (ZipArchive a)
    ∧ sanitize (make_submissions_dict submissions) (extractall a) = Ok st
    ∧ paths = (report, report_min)
    ∧ w' = <[report_min := ZipArchive (walk_files (scratch st))]> w.
Proof.
  unfold _post_process_jplag_results. intros H.
  apply bind_Ok in H as (report_min & s & H1 & H). apply lift_Ok in H1 as [H1 ->].
  apply bind_Ok in H as (a & s & H2 & H). unfold open_zip in H2.
  destruct (w !! report) as [[|a0|?]|] eqn:Hw; try discriminate.
  inversion H2; subst a0 s. clear H2.
  apply bind_Ok in H as (st & s & H3 & H). apply lift_Ok in H3 as [H3 ->].
  apply bind_Ok in H as ([] & s & H4 & H). unfold write_zip in H4.
  unfold ret in H. inversion H; subst. clear H.
  exists report_min, a, st. repeat (split; [first [assumption | reflexivity]|]).
  destruct (w !! report_min) as [[| |]|]; inversion H4; reflexivity.
Qed.

Section Loop.

Variable submissions_dict : gmap string PyPlagSubmission.

Lemma sanitize_Ok tmpfile st :
  sanitize submissions_dict tmpfile = Ok st →
  ∃ o st1,
    load_overview tmpfile = Ok o
    ∧ for_each (dir_names tmpfile) (process_entry submissions_dict)
        {| scratch := tmpfile; overview := o; trace := [] |} = (Ok tt, st1)
    ∧ st = log (EvWrite "overview.json" (DOverview (overview st1)))
             (set_scratch (dir_write "overview.json" (NFile [DOverview (overview st1)])) st1).
Proof.
  unfold sanitize. destruct (load_overview tmpfile) as [o|e]; [|discriminate].
  destruct ((filter_entries submissions_dict >> dump_overview)%py _) as [[[]|e] s] eqn:E;
    [|discriminate].
  intros [= ->]. apply bind_Ok in E as ([] & st1 & Hloop & Hdump).
  unfold filter_entries in Hloop. apply bind_Ok in Hloop as (s0 & s1 & Hget & Hloop).
  inversion Hget; subst s0 s1. simpl in Hloop.
  unfold dump_overview, modify in Hdump. inversion Hdump.
  exists o, st1. auto.
Qed.

(** An iteration that returns leaves the scratch directory as it was or
    without the entry it looked at. *)
Lemma process_entry_scratch name st st' :
  process_entry submissions_dict name st = (Ok tt, st') →
  scratch st' = scratch st ∨ scratch st' = dir_remove name (scratch st).
Proof.
  intros H. apply process_entry_Ok in H as [[_ ->]|(_ & a & b & s1 & s2 & _ & _ & _ & H)];
    [now left|].
  destruct H as [[_ ->]|[_ H]]; [now left|].
  collision_state H.
  now right.
Qed.

Lemma process_entry_names name st st' n :
  process_entry submissions_dict name st = (Ok tt, st') →
  In n (dir_names (scratch st')) → In n (dir_names (scratch st)).
Proof.
  intros H. apply process_entry_scratch in H as [->| ->]; [auto|].
  rewrite dir_names_remove. tauto.
Qed.

Lemma loop_names names st st' n :
  for_each names (process_entry submissions_dict) st = (Ok tt, st') →
  In n (dir_names (scratch st')) → In n (dir_names (scratch st)).
Proof.
  intros H.
  apply (for_each_invariant
           (fun s => In n (dir_names (scratch s)) → In n (dir_names (scratch st)))
           names (process_entry submissions_dict)) with (s := st); [|auto|exact H].
  intros x s s' _ HI Hstep Hin. apply HI. eapply process_entry_names; eauto.
Qed.

(** The file operations are only ever added to. *)
Lemma process_entry_trace name st st' ev :
  process_entry submissions_dict name st = (Ok tt, st') →
  In ev (trace st) → In ev (trace st').
Proof.
  intros H. apply process_entry_Ok in H as [[_ ->]|(_ & a & b & s1 & s2 & _ & _ & _ & H)];
    [auto|].
  destruct H as [[_ ->]|[_ H]]; [auto|].
  collision_state H.
  simpl. intros Hin. apply in_or_app. now left.
Qed.

Lemma loop_trace names st st' ev :
  for_each names (process_entry submissions_dict) st = (Ok tt, st') →
  In ev (trace st) → In ev (trace st').
Proof.
  intros H Hin.
  apply (for_each_invariant (fun s => In ev (trace s))
           names (process_entry submissions_dict)) with (s := st); [|auto|exact H].
  intros x s s' _ HI Hstep. eapply process_entry_trace; eauto.
Qed.

Lemma entry_named_split name a b :
  entry_named name a b → (2 <= length (split dash (stem name)))%nat.
Proof. unfold entry_named. intros ->. apply split_append_sep_length. Qed.

Lemma entry_named_not_ignored name a b :
  entry_named name a b → name ∉ ignore_files.
Proof.
  intros Hn Hi. apply entry_named_split in Hn. apply ignore_files_split in Hi. lia.
Qed.

(** The iteration of an entry named after two submissions of one author:
    the entry is unlinked. *)
Lemma process_entry_collision name a b sa sb st st' :
  entry_named name a b →
  submissions_dict !! a = Some sa → submissions_dict !! b = Some sb →
  author sa = author sb →
  process_entry submissions_dict name st = (Ok tt, st') →
  remove_collision name a b st = (Ok tt, st').
Proof.
  intros Hn Ha Hb Hauth H.
  apply process_entry_Ok in H as [[Hi _]|(_ & x & y & s1 & s2 & Hs & H1 & H2 & H)].
  - exfalso. eapply entry_named_not_ignored; eauto.
  - unfold entry_named in Hn. rewrite Hn in Hs.
    apply split_pair_inv in Hs as [-> ->].
    rewrite Ha in H1. rewrite Hb in H2. inversion H1; inversion H2; subst.
    destruct H as [[Hne _]|[_ H]]; [contradiction|assumption].
Qed.

Lemma loop_removes_collision names st st' name a b sa sb :
  for_each names (process_entry submissions_dict) st = (Ok tt, st') →
  In name names →
  entry_named name a b →
  submissions_dict !! a = Some sa → submissions_dict !! b = Some sb →
  author sa = author sb →
  ¬ In name (dir_names (scratch st')) ∧ In (EvUnlink name) (trace st').
Proof.
  intros Hloop Hin Hn Ha Hb Hauth.
  destruct (for_each_reaches _ _ _ _ _ Hin Hloop) as (l1 & l2 & s1 & s2 & _ & _ & Hstep & Hrest).
  eapply process_entry_collision in Hstep; eauto.
  collision_state Hstep.
  split.
  - intros Hin'. eapply loop_names in Hin'; [|exact Hrest].
    simpl in Hin'. apply dir_names_remove in Hin' as [_ Hne]. now apply Hne.
  - eapply loop_trace; [exact Hrest|]. simpl. apply in_or_app. right. simpl. auto.
Qed.

End Loop.

(** ** The index stays consistent when it is symmetric *)

Lemma pruned_symmetric a b idx :
  index_symmetric idx → index_symmetric (pruned a b idx).
Proof.
  intros Hs x y [v Hv].
  pose proof (pruned_sub _ _ _ _ _ _ Hv) as Hv0.
  destruct (index_lookup idx a b) as [u|] eqn:E.
  - destruct (pruned_first_present a b idx u E) as [Hab Hba].
    rewrite pruned_other.
    + apply Hs. eauto.
    + intros [-> ->]. congruence.
    + intros [-> ->]. congruence.
  - rewrite (pruned_first_missing a b idx E). apply Hs. eauto.
Qed.

Lemma pruned_removes_pair a b idx :
  index_symmetric idx →
  index_lookup (pruned a b idx) a b = None ∧ index_lookup (pruned a b idx) b a = None.
Proof.
  intros Hs. destruct (index_lookup idx a b) as [u|] eqn:E.
  - eapply pruned_first_present; eauto.
  - rewrite (pruned_first_missing a b idx E). split; [assumption|].
    destruct (index_lookup idx b a) as [u|] eqn:E2; [|reflexivity].
    destruct (Hs b a) as [u' Hu']; [eauto|]. congruence.
Qed.

Lemma process_entry_index_invariant submissions_dict st0 name st st' :
  index_invariant st0 st →
  process_entry submissions_dict name st = (Ok tt, st') →
  index_invariant st0 st'.
Proof.
  intros (Hsym & Hsub & Hgone) H.
  apply process_entry_Ok in H as [[_ ->]|(_ & a & b & s1 & s2 & Hs & _ & _ & H)];
    [repeat split; assumption|].
  destruct H as [[_ ->]|[_ H]]; [repeat split; assumption|].
  collision_state H.
  unfold index_invariant. simpl. split; [now apply pruned_symmetric|]. split.
  - intros p q v Hv. apply Hsub. eapply pruned_sub; eauto.
  - intros n p q Hn0 Hn Hpair.
    destruct (in_dec string_dec n (dir_names (scratch st))) as [Hin|Hnin].
    + assert (n = name) as ->.
      { destruct (string_dec n name) as [|Hne]; [assumption|].
        exfalso. apply Hn. apply dir_names_remove. auto. }
      destruct (pruned_removes_pair a b _ Hsym) as [Hab Hba].
      destruct Hpair as [Hp|Hp]; rewrite Hs in Hp; inversion Hp; subst; assumption.
    + pose proof (Hgone n p q Hn0 Hnin Hpair) as Hnone.
      destruct (index_lookup (pruned a b _) p q) as [v|] eqn:E; [|reflexivity].
      apply pruned_sub in E. congruence.
Qed.

(** When the index of the input is symmetric and refers only to pairs
    that have an entry, the index that the pass leaves refers only to
    pairs whose entry is still in the scratch directory. The failure of
    C3 needs an index that has one direction of a pair without the
    other. *)
Theorem index_consistent_when_symmetric submissions_dict tmpfile o st :
  load_overview tmpfile = Ok o →
  index_symmetric (submission_ids_to_comparison_file_name o) →
  index_consistent (submission_ids_to_comparison_file_name o) tmpfile →
  sanitize submissions_dict tmpfile = Ok st →
  index_symmetric (submission_ids_to_comparison_file_name (overview st))
  ∧ index_consistent (submission_ids_to_comparison_file_name (overview st)) (scratch st).
Proof.
  intros Ho Hsym Hcons Hsan.
  apply sanitize_Ok in Hsan as (o' & st1 & Ho' & Hloop & ->).
  rewrite Ho in Ho'. inversion Ho'; subst o'. clear Ho'.
  set (st0 := {| scratch := tmpfile; overview := o; trace := [] |}) in *.
  assert (Hinv : index_invariant st0 st1).
  { apply (for_each_invariant (index_invariant st0) (dir_names tmpfile)
             (process_entry submissions_dict)) with (s := st0); [| |exact Hloop].
    - intros x s s' _ HI Hstep. eapply process_entry_index_invariant; eauto.
    - repeat split; auto. intros n x y Hin Hnin. contradiction. }
  destruct Hinv as (Hsym1 & Hsub & Hgone). simpl. split; [assumption|].
  intros x y v Hv. destruct (Hcons x y v (Hsub x y v Hv)) as (n & Hn & Hpair).
  exists n. split; [|assumption]. apply dir_names_write. right.
  destruct (in_dec string_dec n (dir_names (scratch st1))) as [Hin|Hnin]; [assumption|].
  rewrite (Hgone n x y Hn Hnin Hpair) in Hv. discriminate.
Qed.

(** ** C4: no collision entry reaches the output archive *)

(** C4. When the pass returns, for any two submissions [A] and [B] of the
    index that have the same author, every entry of the input archive
    named [A-B] or [B-A] (with any extension) has been unlinked from the
    scratch directory, and neither the scratch directory nor the archive
    written at the minimized path has an entry of either name. *)
Theorem collisions_absent_from_output report submissions w paths w' A B sA sB :
  _post_process_jplag_results report submissions w = (Ok paths, w') →
  make_submissions_dict submissions !! A = Some sA →
  make_submissions_dict submissions !! B = Some sB →
  author sA = author sB →
  ∃ a st out,
    w !! report = Some (ZipArchive a)
    ∧ sanitize (make_submissions_dict submissions) (extractall a) = Ok st
    ∧ w' !! snd paths = Some (ZipArchive out)
    ∧ (∀ name, entry_named name A B ∨ entry_named name B A →
         ¬ In name (dir_names (scratch st)) ∧ ¬ In name (dir_names out))
    ∧ (∀ name, In name (dir_names (extractall a)) →
         entry_named name A B ∨ entry_named name B A →
         In (EvUnlink name) (trace st)).
Proof.
  intros Hrun HA HB Hauth.
  apply post_process_Ok in Hrun as (report_min & a & st & _ & Hw & Hs & -> & ->).
  exists a, st, (walk_files (scratch st)).
  split; [assumption|]. split; [assumption|].
  split; [simpl; apply lookup_insert_eq|].
  apply sanitize_Ok in Hs as (o & st1 & _ & Hloop & ->).
  assert (Hpair : ∀ name, entry_named name A B ∨ entry_named name B A →
            ∃ x y sx sy, entry_named name x y
              ∧ make_submissions_dict submissions !! x = Some sx
              ∧ make_submissions_dict submissions !! y = Some sy
              ∧ author sx = author sy).
  { intros name [Hn|Hn]; [exists A, B, sA, sB | exists B, A, sB, sA]; auto. }
  split.
  - intros name Hn. destruct (Hpair name Hn) as (x & y & sx & sy & Hxy & Hx & Hy & Hxya).
    assert (Hgone : ¬ In name (dir_names (scratch st1))).
    { intros Hin.
      assert (Hin0 : In name (dir_names (extractall a))).
      { eapply loop_names in Hin; [|exact Hloop]. exact Hin. }
      destruct (loop_removes_collision _ _ _ _ _ _ _ _ _ Hloop Hin0 Hxy Hx Hy Hxya) as [Hno _].
      now apply Hno. }
    assert (Hgone' : ¬ In name (dir_names
                       (dir_write "overview.json" (NFile [DOverview (overview st1)])
                          (scratch st1)))).
    { rewrite dir_names_write. intros [->|Hin]; [|now apply Hgone].
      apply entry_named_not_ignored in Hxy. apply Hxy.
      unfold ignore_files. rewrite !elem_of_cons. auto 10. }
    split; [exact Hgone'|].
    intros Hin. apply dir_names_walk_files in Hin. now apply Hgone'.
  - intros name Hin Hn. destruct (Hpair name Hn) as (x & y & sx & sy & Hxy & Hx & Hy & Hxya).
    destruct (loop_removes_collision _ _ _ _ _ _ _ _ _ Hloop Hin Hxy Hx Hy Hxya) as [_ Hev].
    simpl. apply in_or_app. now left.
Qed.

Lemma collisions_absent_from_output_witness :
  ∃ out,
    snd (_post_process_jplag_results demo_report demo_submissions demo_world)
      !! demo_report_min = Some (ZipArchive out)
    ∧ ¬ In "one-two.json" (dir_names out).
Proof.
  assert (Hrun : _post_process_jplag_results demo_report demo_submissions demo_world
                 = (Ok (demo_report, demo_report_min),
                    snd (_post_process_jplag_results demo_report demo_submissions
                           demo_world)))
    by by_computation.
  destruct (collisions_absent_from_output _ _ _ _ _ "one" "two"
              (demo_submission "one" "t1") (demo_submission "two" "t1") Hrun)
    as (a & st & out & _ & _ & Hout & Habsent & _);
    try by_computation.
  exists out. split; [exact Hout|].
  apply (Habsent "one-two.json"). left. reflexivity.
Defined.

(** ** Descriptors of [top_comparisons] *)

Lemma filter_comparison_true a b comp :
  filter_comparison a b comp = true ↔ ¬ names_pair comp a b.
Proof.
  unfold filter_comparison, names_pair.
  destruct (String.eqb_spec (first_submission comp) a),
           (String.eqb_spec (second_submission comp) b),
           (String.eqb_spec (first_submission comp) b),
           (String.eqb_spec (second_submission comp) a); simpl;
    split; intros H; try discriminate; try reflexivity; try tauto;
    exfalso; apply H; tauto.
Qed.

Section TopComparisons.

Variable submissions_dict : gmap string PyPlagSubmission.

Lemma process_entry_top name st st' comp :
  process_entry submissions_dict name st = (Ok tt, st') →
  In comp (top_comparisons (overview st')) → In comp (top_comparisons (overview st)).
Proof.
  intros H. apply process_entry_Ok in H as [[_ ->]|(_ & a & b & s1 & s2 & _ & _ & _ & H)];
    [auto|].
  destruct H as [[_ ->]|[_ H]]; [auto|].
  collision_state H.
  simpl. intros Hin. apply filter_In in Hin. tauto.
Qed.

Lemma loop_top names st st' comp :
  for_each names (process_entry submissions_dict) st = (Ok tt, st') →
  In comp (top_comparisons (overview st')) → In comp (top_comparisons (overview st)).
Proof.
  intros H.
  apply (for_each_invariant
           (fun s => In comp (top_comparisons (overview s)) →
                     In comp (top_comparisons (overview st)))
           names (process_entry submissions_dict)) with (s := st); [|auto|exact H].
  intros x s s' _ HI Hstep Hin. apply HI. eapply process_entry_top; eauto.
Qed.

Lemma split_pair_entry_named name a b :
  split dash (stem name) = [a; b] → entry_named name a b.
Proof. apply split_pair_join. Qed.

Lemma loop_removes_descriptors names st st' name a b sa sb comp :
  for_each names (process_entry submissions_dict) st = (Ok tt, st') →
  In name names →
  split dash (stem name) = [a; b] →
  submissions_dict !! a = Some sa → submissions_dict !! b = Some sb →
  author sa = author sb →
  In comp (top_comparisons (overview st')) → ¬ names_pair comp a b.
Proof.
  intros Hloop Hin Hs Ha Hb Hauth Hcomp.
  destruct (for_each_reaches _ _ _ _ _ Hin Hloop) as (l1 & l2 & s1 & s2 & _ & _ & Hstep & Hrest).
  eapply process_entry_collision in Hstep; eauto using split_pair_entry_named.
  collision_state Hstep.
  eapply loop_top in Hcomp; [|exact Hrest]. simpl in Hcomp.
  apply filter_In in Hcomp as [_ Hf]. now apply filter_comparison_true.
Qed.

End TopComparisons.

Lemma load_overview_dumped o d :
  load_overview (walk_files (dir_write "overview.json" (NFile [DOverview o]) d)) = Ok o.
Proof.
  unfold load_overview.
  now rewrite (dir_lookup_walk_files _ [DOverview o]) by apply dir_lookup_write_eq.
Qed.

(** ** C5: [top_comparisons] names no removed pair *)

(** C5. When the pass returns, the [top_comparisons] of the rewritten
    overview is what is left of the list of the input: for every entry of
    the input archive whose name splits into two submissions [id1] and
    [id2] of the same author, it holds no descriptor naming the pair, be
    it as (first, second) = (id1, id2) or as (id2, id1). *)
Theorem top_comparisons_pruned report submissions w paths w' :
  _post_process_jplag_results report submissions w = (Ok paths, w') →
  ∃ a o out o',
    w !! report = Some (ZipArchive a)
    ∧ load_overview (extractall a) = Ok o
    ∧ w' !! snd paths = Some (ZipArchive out)
    ∧ load_overview out = Ok o'
    ∧ (∀ comp, In comp (top_comparisons o') → In comp (top_comparisons o))
    ∧ (∀ name id1 id2 s1 s2 comp,
         In name (dir_names (extractall a)) →
         split dash (stem name) = [id1; id2] →
         make_submissions_dict submissions !! id1 = Some s1 →
         make_submissions_dict submissions !! id2 = Some s2 →
         author s1 = author s2 →
         In comp (top_comparisons o') →
         ¬ (first_submission comp = id1 ∧ second_submission comp = id2)
         ∧ ¬ (first_submission comp = id2 ∧ second_submission comp = id1)).
Proof.
  intros Hrun.
  apply post_process_Ok in Hrun as (report_min & a & st & _ & Hw & Hs & -> & ->).
  apply sanitize_Ok in Hs as (o & st1 & Ho & Hloop & ->).
  exists a, o, (walk_files (dir_write "overview.json" (NFile [DOverview (overview st1)])
                              (scratch st1))), (overview st1).
  split; [assumption|]. split; [assumption|].
  split; [simpl; apply lookup_insert_eq|].
  split; [apply load_overview_dumped|].
  split.
  - intros comp Hin. eapply loop_top in Hin; [|exact Hloop]. exact Hin.
  - intros name id1 id2 s1 s2 comp Hin Hsplit H1 H2 Hauth Hcomp.
    pose proof (loop_removes_descriptors _ _ _ _ _ _ _ _ _ _
                  Hloop Hin Hsplit H1 H2 Hauth Hcomp) as Hno.
    unfold names_pair in Hno. tauto.
Qed.

Lemma top_comparisons_pruned_witness :
  ∃ out o',
    snd (_post_process_jplag_results demo_report demo_submissions demo_world)
      !! demo_report_min = Some (ZipArchive out)
    ∧ load_overview out = Ok o'
    ∧ ¬ In (demo_descriptor "two" "one") (top_comparisons o').
Proof.
  assert (Hrun : _post_process_jplag_results demo_report demo_submissions demo_world
                 = (Ok (demo_report, demo_report_min),
                    snd (_post_process_jplag_results demo_report demo_submissions
                           demo_world)))
    by by_computation.
  destruct (top_comparisons_pruned _ _ _ _ _ Hrun)
    as (a & o & out & o' & Ha & _ & Hout & Ho' & _ & Hpruned).
  exists out, o'. split; [exact Hout|]. split; [exact Ho'|].
  intros Hin.
  assert (Ha' : demo_world !! demo_report = Some (ZipArchive demo_archive))
    by by_computation.
  rewrite Ha' in Ha. injection Ha as Ha. subst a.
  assert (Hnames : dir_names (extractall demo_archive)
                   = ["options.json"; "one-two.json"; "files"; "overview.json";
                      "one-three.json"]) by by_computation.
  assert (Hin0 : In "one-two.json" (dir_names (extractall demo_archive))).
  { rewrite Hnames. right. left. reflexivity. }
  destruct (Hpruned "one-two.json" "one" "two"
              (demo_submission "one" "t1") (demo_submission "two" "t1")
              (demo_descriptor "two" "one") Hin0) as [_ Hno];
    try by_computation; [exact Hin|].
  apply Hno. split; reflexivity.
Defined.

(** ** C6: entries of two authors are left alone *)

Lemma split_pair_not_ignored name a b :
  split dash (stem name) = [a; b] → name ∉ ignore_files.
Proof. intros H Hi. apply ignore_files_split in Hi. rewrite H in Hi. discriminate. Qed.

Lemma process_entry_different_authors submissions_dict name a b s1 s2 st :
  split dash (stem name) = [a; b] →
  submissions_dict !! a = Some s1 → submissions_dict !! b = Some s2 →
  author s1 ≠ author s2 →
  process_entry submissions_dict name st = (Ok tt, st).
Proof.
  intros Hs H1 H2 Hne. unfold process_entry.
  rewrite bool_decide_eq_false_2 by (eapply split_pair_not_ignored; eauto).
  rewrite Hs. unfold bind, lift, dict_get. simpl. rewrite H1, H2.
  destruct (String.eqb_spec (author s1) (author s2)); [contradiction|reflexivity].
Qed.

(** An iteration that returns does not touch the file of an entry of two
    authors. *)
Lemma process_entry_keeps_file submissions_dict name a b s1 s2 c x st st' :
  split dash (stem name) = [a; b] →
  submissions_dict !! a = Some s1 → submissions_dict !! b = Some s2 →
  author s1 ≠ author s2 →
  process_entry submissions_dict x st = (Ok tt, st') →
  dir_lookup name (scratch st) = Some (NFile c) →
  dir_lookup name (scratch st') = Some (NFile c).
Proof.
  intros Hs H1 H2 Hne Hstep Hfile.
  destruct (String.eqb_spec name x) as [<-|Hx].
  - rewrite (process_entry_different_authors _ _ _ _ _ _ _ Hs H1 H2 Hne) in Hstep.
    now inversion Hstep; subst.
  - apply process_entry_scratch in Hstep as [->| ->]; [assumption|].
    now rewrite dir_lookup_remove_ne.
Qed.

(** C6. An entry whose name splits into two submissions of different
    authors is passed over: its iteration returns the state it was given
    (scratch directory, distributions, index, [top_comparisons] and file
    operations all as before), and when the pass returns the archive
    written at the minimized path holds the entry with the content it has
    in the input archive. *)
Theorem different_authors_untouched submissions name id1 id2 s1 s2 :
  split dash (stem name) = [id1; id2] →
  make_submissions_dict submissions !! id1 = Some s1 →
  make_submissions_dict submissions !! id2 = Some s2 →
  author s1 ≠ author s2 →
  (∀ st, process_entry (make_submissions_dict submissions) name st = (Ok tt, st))
  ∧ (∀ report w paths w' a c,
       _post_process_jplag_results report submissions w = (Ok paths, w') →
       w !! report = Some (ZipArchive a) →
       dir_lookup name (extractall a) = Some (NFile c) →
       ∃ out, w' !! snd paths = Some (ZipArchive out)
              ∧ dir_lookup name out = Some (NFile c)).
Proof.
  intros Hs H1 H2 Hne. split.
  - intros st. eapply process_entry_different_authors; eauto.
  - intros report w paths w' a c Hrun Hw Hfile.
    apply post_process_Ok in Hrun as (report_min & a' & st & _ & Hw' & Hsan & -> & ->).
    rewrite Hw in Hw'. inversion Hw'; subst a'. clear Hw'.
    apply sanitize_Ok in Hsan as (o & st1 & _ & Hloop & ->).
    eexists. split; [simpl; apply lookup_insert_eq|].
    apply dir_lookup_walk_files. simpl.
    rewrite dir_lookup_write_ne.
    2: { intros ->. eapply split_pair_not_ignored; [exact Hs|].
         unfold ignore_files. rewrite !elem_of_cons. auto 10. }
    apply (for_each_invariant
             (fun s => dir_lookup name (scratch s) = Some (NFile c))
             (dir_names (extractall a))
             (process_entry (make_submissions_dict submissions)))
      with (s := {| scratch := extractall a; overview := o; trace := [] |});
      [|exact Hfile|exact Hloop].
    intros x s s' _ HI Hstep. eapply process_entry_keeps_file; eauto.
Qed.

Lemma different_authors_untouched_witness :
  process_entry (make_submissions_dict demo_submissions) "one-three.json" demo_state
  = (Ok tt, demo_state)
  ∧ ∃ out,
      snd (_post_process_jplag_results demo_report demo_submissions demo_world)
        !! demo_report_min = Some (ZipArchive out)
      ∧ dir_lookup "one-three.json" out = Some (NFile [DComparison one_three]).
Proof.
  destruct (different_authors_untouched demo_submissions "one-three.json" "one" "three"
              (demo_submission "one" "t1") (demo_submission "three" "t2"))
    as [Hstep Hrun]; try by_computation.
  { vm_compute. discriminate. }
  split; [apply Hstep|].
  apply (Hrun demo_report demo_world (demo_report, demo_report_min)
           (snd (_post_process_jplag_results demo_report demo_submissions demo_world))
           demo_archive [DComparison one_three]);
    by_computation.
Defined.

(** ** C7: a fatal condition leaves the file system as it was *)

Lemma process_entry_bad_name submissions_dict name st :
  name ∉ ignore_files → length (split dash (stem name)) ≠ 2%nat →
  process_entry submissions_dict name st = (Raise ValueError, st).
Proof.
  intros Hi Hl. unfold process_entry. rewrite bool_decide_eq_false_2 by assumption.
  unfold bind, lift, unpack2.
  destruct (split dash (stem name)) as [|x [|y [|? ?]]]; try reflexivity.
  now elim Hl.
Qed.

Lemma process_entry_unknown submissions_dict name a b st :
  name ∉ ignore_files → split dash (stem name) = [a; b] →
  submissions_dict !! a = None ∨ submissions_dict !! b = None →
  process_entry submissions_dict name st = (Raise KeyError, st).
Proof.
  intros Hi Hs Hnone. unfold process_entry. rewrite bool_decide_eq_false_2 by assumption.
  rewrite Hs. unfold bind, lift, dict_get. simpl.
  destruct (submissions_dict !! a) as [s1|]; [|reflexivity].
  destruct Hnone as [? | ->]; [discriminate|reflexivity].
Qed.

Lemma sanitize_loop_raises submissions_dict tmpfile name :
  In name (dir_names tmpfile) →
  (∀ st, ∃ e st', process_entry submissions_dict name st = (Raise e, st')) →
  ∃ e, sanitize submissions_dict tmpfile = Raise e.
Proof.
  intros Hin Hraise. unfold sanitize.
  destruct (load_overview tmpfile) as [o|e]; [|eauto].
  destruct (for_each_raises _ (process_entry submissions_dict) name Hin Hraise
              {| scratch := tmpfile; overview := o; trace := [] |}) as (e & st' & He).
  unfold filter_entries, bind, get. simpl. rewrite He. eauto.
Qed.

Lemma fatal_sanitize submissions_dict tmpfile :
  fatal submissions_dict tmpfile → ∃ e, sanitize submissions_dict tmpfile = Raise e.
Proof.
  intros [Hnone|c Hc Hbad|name Hin Hi Hl|name a b Hin Hi Hs Hnone].
  - unfold sanitize, load_overview. rewrite Hnone. eauto.
  - unfold sanitize, load_overview. rewrite Hc.
    destruct c as [|[o|?|?] [|? ?]]; eauto. destruct Hbad.
  - apply (sanitize_loop_raises _ _ name Hin). intros st.
    exists ValueError, st. now apply process_entry_bad_name.
  - apply (sanitize_loop_raises _ _ name Hin). intros st.
    exists KeyError, st. eapply process_entry_unknown; eauto.
Qed.

(** Whatever makes the pass raise, the file system is the one it started
    from. *)
Lemma post_process_failure_keeps_world (report : path)
    (submissions : list PyPlagSubmission) (w w' : world) (e : exn) :
  _post_process_jplag_results report submissions w = (Raise e, w') → w' = w.
Proof.
  unfold _post_process_jplag_results, bind, lift, open_zip, write_zip, ret.
  destruct (with_stem report _) as [report_min|e1]; [|now intros [= _ ->]].
  destruct (w !! report) as [[|a|?]|]; try (now intros [= _ ->]).
  destruct (sanitize _ _) as [st|e2]; [|now intros [= _ ->]].
  destruct (w !! report_min) as [[| |]|]; try discriminate. now intros [= _ ->].
Qed.

(** C7. When the extracted archive has one of the fatal conditions (the
    summary document is missing or cannot be read, an entry name does not
    split into exactly two components, an entry names a submission that
    the index does not have), the pass raises and the file system is the
    one it started from: nothing is written at the minimized path and the
    input archive is as it was. *)
Theorem fatal_conditions_abort report submissions w a :
  w !! report = Some (ZipArchive a) →
  fatal (make_submissions_dict submissions) (extractall a) →
  ∃ e, _post_process_jplag_results report submissions w = (Raise e, w).
Proof.
  intros Hw Hfatal. apply fatal_sanitize in Hfatal as [e He].
  unfold _post_process_jplag_results, bind, lift, open_zip.
  destruct (with_stem report _) as [report_min|e']; [|eauto].
  rewrite Hw, He. eauto.
Qed.

Lemma fatal_conditions_abort_witness :
  ∃ e, _post_process_jplag_results demo_report demo_submissions
         (<[demo_report := ZipArchive [("one-two.json", NFile [DComparison one_two])]]>
            demo_world)
       = (Raise e,
          <[demo_report := ZipArchive [("one-two.json", NFile [DComparison one_two])]]>
            demo_world).
Proof.
  apply (fatal_conditions_abort demo_report demo_submissions _
           [("one-two.json", NFile [DComparison one_two])]).
  - by_computation.
  - apply fatal_overview_missing. reflexivity.
Defined.

(** ** C8: a failed detector run is reported without post-processing *)

Lemma mkdir_from_keeps (base : path) (rest : list string) (w w1 : world)
    (q : path) (x : fsnode) :
  mkdir_from base rest w = (Ok tt, w1) → w !! q = Some x → w1 !! q = Some x.
Proof.
  revert base w. induction rest as [|c rest IH]; intros base w H Hq; simpl in H.
  - unfold ret in H. now inversion H; subst.
  - apply bind_Ok in H as ([] & s1 & Hstep & H).
    apply (IH _ _ H).
    destruct (w !! (base ++ [c])) as [[| |]|] eqn:E; inversion Hstep; subst; auto.
    rewrite lookup_insert_ne; [assumption|]. intros <-. congruence.
Qed.

(** Making a directory that was just made changes nothing. *)
Lemma mkdir_from_again (base : path) (rest : list string) (w w1 : world) :
  mkdir_from base rest w = (Ok tt, w1) → mkdir_from base rest w1 = (Ok tt, w1).
Proof.
  revert base w. induction rest as [|c rest IH]; intros base w H; simpl in *.
  - reflexivity.
  - apply bind_Ok in H as ([] & s1 & Hstep & H).
    assert (Hdir : w1 !! (base ++ [c]) = Some Directory).
    { apply (mkdir_from_keeps _ _ _ _ _ _ H).
      destruct (w !! (base ++ [c])) as [[| |]|] eqn:E; inversion Hstep; subst; auto.
      apply lookup_insert_eq. }
    unfold bind. rewrite Hdir. eapply IH; eauto.
Qed.

(** C8. In a run that reaches the detector (the language is accepted, the
    report directory can be made, there are at least two submissions and
    they can be staged) and in which the detector returns a status other
    than zero, [run] returns a report whose [report_min_path] is [None] and
    whose [status], [stdout] and [stderr] are those of the detector
    process; the file system is the one the detector left, so
    [_post_process_jplag_results] has not run. *)
Theorem nonzero_status_skips_post_processing
    (subprocess_run : jplag_command → py world CompletedProcess)
    (self : PyPlag) (lang : string) (submissions : list PyPlagSubmission)
    (w w1 w2 : world) (staged : gmap string (gmap string string))
    (result : CompletedProcess) :
  lang ∈ supported_languages self ∨ ignore_unsupported_language (settings self) = true →
  mkdir (report_dir (settings self)) w = (Ok tt, w1) →
  (1 < length submissions)%nat →
  stage_submissions submissions = Ok staged →
  subprocess_run
    {| cmd_java := java_cmd (settings self);
       cmd_jar := jplag_jar (settings self);
       cmd_lang := lang;
       cmd_mode := "RUN";
       cmd_report := report_dir (settings self) ++ [lang +:+ ".jplag"];
       cmd_extra_args := if clustering (settings self) then [] else ["--cluster-skip"];
       cmd_submissions_dir := staged |} w1 = (Ok result, w2) →
  returncode result ≠ 0 →
  run subprocess_run self lang submissions w
  = (Ok {| status := returncode result;
           stdout := proc_stdout result;
           stderr := proc_stderr result;
           report_path := report_dir (settings self) ++ [lang +:+ ".jplag"];
           report_min_path := None |}, w2).
Proof.
  intros Hlang Hmk Hlen Hstage Hrun Hrc. unfold run.
  assert (Hcheck : negb (bool_decide (lang ∈ supported_languages self))
                   && negb (ignore_unsupported_language (settings self)) = false).
  { destruct Hlang as [Hin| ->].
    - now rewrite bool_decide_eq_true_2.
    - now rewrite andb_false_r. }
  rewrite Hcheck.
  erewrite bind_step by reflexivity.
  erewrite bind_step by exact Hmk.
  destruct (Nat.leb_spec (length submissions) 1) as [?|_]; [lia|].
  erewrite bind_step by reflexivity.
  erewrite bind_step by (unfold lift; rewrite Hstage; reflexivity).
  erewrite bind_step by (eapply mkdir_from_again; exact Hmk).
  erewrite bind_step by exact Hrun.
  destruct (Z.eqb_spec (returncode result) 0) as [?|_]; [contradiction|].
  reflexivity.
Qed.

Lemma nonzero_status_skips_post_processing_witness :
  run failing_detector demo_self "python3" demo_submissions demo_world
  = (Ok {| status := 1; stdout := ""; stderr := "no java";
           report_path := ["reports"; "python3.jplag"];
           report_min_path := None |}, demo_world).
Proof.
  apply (nonzero_status_skips_post_processing failing_detector demo_self "python3"
           demo_submissions demo_world demo_world demo_world
           (<["three" := {["main.py" := "print(input())"]}]>
              (<["two" := {["main.py" := "print(input())"]}]>
                 {["one" := {["main.py" := "print(input())"]}]}))
           {| returncode := 1; proc_stdout := ""; proc_stderr := "no java" |}).
  - left. apply list_elem_of_here.
  - by_computation.
  - simpl. lia.
  - by_computation.
  - reflexivity.
  - simpl. lia.
Defined.

(** ** C9: the placeholder is written before the entry is deleted *)

(** C9 as it stands fails: on the entry [one-two.json] of the small
    report the branch writes the placeholder before it unlinks the file. *)
Lemma overwrite_precedes_deletion : ¬ deletes_without_overwriting.
Proof.
  intros H.
  destruct (H "one-two.json" "one" "two" demo_state
              (after_collision "one-two.json" "one" "two"
                 (decremented 99 (histogram_of [(99%nat, 1); (28%nat, 1)]))
                 (decremented 75 (histogram_of [(75%nat, 1); (25%nat, 1)]))
                 demo_state))
    as (events & Htrace & Hnone).
  - by_computation.
  - cbn [trace after_collision demo_state app] in Htrace. subst events.
    apply (Hnone (DComparison (placeholder "one" "two"))). right. left. reflexivity.
Qed.

(** C9, amended. When the collision branch returns, it has loaded the file
    of the entry, then written the placeholder record of the two ids at
    the end of that file, then unlinked the file, in this order; the
    scratch directory it leaves is the one a deletion alone leaves. *)
Theorem collision_overwrites_then_deletes name a b st st' :
  remove_collision name a b st = (Ok tt, st') →
  ∃ r,
    dir_lookup name (scratch st) = Some (NFile [DComparison r])
    ∧ trace st' = trace st ++ [EvLoad name;
                               EvWrite name (DComparison (placeholder a b));
                               EvUnlink name]
    ∧ scratch st' = dir_remove name (scratch st)
    ∧ dir_lookup name (scratch st') = None.
Proof.
  intros H.
  apply remove_collision_Ok in H
    as (r & hM & vM & iM & hM' & hA & vA & iA & hA' & Hfile & _ & _ & _ & _ & _ & _ & _ & _ & ->).
  exists r. split; [assumption|]. split; [reflexivity|]. split; [reflexivity|].
  simpl. destruct (dir_lookup name (dir_remove name (scratch st))) eqn:E; [|reflexivity].
  assert (Hin : In name (dir_names (dir_remove name (scratch st)))).
  { apply dir_lookup_names. eauto. }
  apply dir_names_remove in Hin as [_ Hne]. now elim Hne.
Qed.

Lemma collision_overwrites_then_deletes_witness :
  ∃ st', remove_collision "one-two.json" "one" "two" demo_state = (Ok tt, st')
         ∧ trace st' = [EvLoad "one-two.json";
                        EvWrite "one-two.json" (DComparison (placeholder "one" "two"));
                        EvUnlink "one-two.json"]
         ∧ dir_lookup "one-two.json" (scratch st') = None.
Proof.
  assert (Hrun : remove_collision "one-two.json" "one" "two" demo_state
                 = (Ok tt, snd (remove_collision "one-two.json" "one" "two" demo_state)))
    by by_computation.
  destruct (collision_overwrites_then_deletes _ _ _ _ _ Hrun) as (r & _ & Htrace & _ & Hgone).
  eexists. split; [exact Hrun|]. split; [exact Htrace|exact Hgone].
Defined.

(** ** C10: the constructor empties the report directory *)

(** Without a report directory the constructor leaves the file system
    alone. *)
Lemma init_without_report_dir (settings0 : PyPlagSettings) (w : world) :
  w !! report_dir settings0 = None → snd (__init__ settings0 w) = w.
Proof.
  intros Hnone. unfold __init__, bind, get.
  rewrite bool_decide_eq_false_2; [reflexivity|].
  rewrite Hnone. now intros [? ?].
Qed.

(** C10. Constructing a [PyPlag] when [settings.report_dir] is an existing
    directory returns the instance and removes the directory and every
    path below it; every other path is left as it was. This happens in the
    constructor, before [run] can be called on the instance. *)
Theorem init_removes_report_dir (settings0 : PyPlagSettings) (w : world) :
  w !! report_dir settings0 = Some Directory →
  ∃ self w',
    __init__ settings0 w = (Ok self, w')
    ∧ settings self = settings0
    ∧ w' !! report_dir settings0 = None
    ∧ (∀ p, report_dir settings0 `prefix_of` p → w' !! p = None)
    ∧ (∀ p, ¬ report_dir settings0 `prefix_of` p → w' !! p = w !! p).
Proof.
  intros Hdir. unfold __init__, bind, get, rmtree.
  rewrite bool_decide_eq_true_2 by (rewrite Hdir; eauto).
  rewrite Hdir. simpl. eexists _, _. split; [reflexivity|]. split; [reflexivity|].
  assert (Hbelow : ∀ p, report_dir settings0 `prefix_of` p →
            filter (fun e : path * fsnode => ¬ report_dir settings0 `prefix_of` e.1) w !! p
            = None).
  { intros p Hp. apply map_lookup_filter_None. right. intros x _ Hn. now apply Hn. }
  split; [now apply Hbelow|]. split; [exact Hbelow|].
  intros p Hp. destruct (w !! p) as [x|] eqn:E.
  - apply map_lookup_filter_Some. auto.
  - apply map_lookup_filter_None. now left.
Qed.

Lemma init_removes_report_dir_witness :
  ∃ self w',
    __init__ demo_settings used_world = (Ok self, w')
    ∧ w' !! ["reports"] = None
    ∧ w' !! ["reports"; "java.jplag"] = None
    ∧ w' !! ["dependencies"] = Some Directory.
Proof.
  destruct (init_removes_report_dir demo_settings used_world)
    as (self & w' & Hinit & _ & Hdir & Hbelow & Hother).
  - by_computation.
  - exists self, w'. split; [exact Hinit|]. split; [exact Hdir|]. split.
    + apply Hbelow. exists ["java.jplag"]. reflexivity.
    + rewrite Hother; [by_computation|].
      intros [k Hk]. discriminate.
Defined.

(** ** The scenario of [main] *)

(** Two submissions of one author with identical files: the pass removes
    the only comparison entry, takes one count from bucket 99 of MAX and
    of AVG, empties [top_comparisons] and the index, and writes an archive
    with the summary document and the two other files. *)
Example main_scenario :
  let result := _post_process_jplag_results demo_report main_submissions main_world in
  let out := archive_at (snd result) demo_report_min in
  let o := overview_of out main_overview in
  fst result = Ok (demo_report, demo_report_min)
  ∧ dir_names out = ["overview.json"; "options.json"; "README.txt"]
  ∧ load_overview out = Ok o
  ∧ distributions o !! "MAX" = Some (replicate 100 0)
  ∧ distributions o !! "AVG" = Some (replicate 100 0)
  ∧ top_comparisons o = []
  ∧ index_lookup (submission_ids_to_comparison_file_name o) "one" "two" = None
  ∧ index_lookup (submission_ids_to_comparison_file_name o) "two" "one" = None
  ∧ snd result !! demo_report = Some (ZipArchive main_archive).
Proof. cbv zeta. repeat split; by_computation. Qed.

(** * Further properties of the pass *)

(** ** The loop, entry by entry *)

Section Decision.

Variable submissions_dict : gmap string PyPlagSubmission.

(** An iteration that returns has either passed over an entry that is no
    collision or run the collision branch on one that is. *)
Lemma process_entry_decision name st st' :
  process_entry submissions_dict name st = (Ok tt, st') →
  (collision submissions_dict name = false ∧ st' = st)
  ∨ (collision submissions_dict name = true
     ∧ ∃ a b, split dash (stem name) = [a; b]
              ∧ remove_collision name a b st = (Ok tt, st')).
Proof.
  intros H. unfold collision.
  apply process_entry_Ok in H as [[Hi ->]|(Hi & a & b & s1 & s2 & Hs & H1 & H2 & H)].
  - left. now rewrite bool_decide_eq_true_2.
  - rewrite bool_decide_eq_false_2 by assumption. rewrite Hs. simpl. rewrite H1, H2.
    destruct H as [[Hne ->]|[Heq H]].
    + left. split; [|reflexivity]. now apply String.eqb_neq.
    + right. split; [now apply String.eqb_eq|]. eauto.
Qed.







End Decision.

(** ** Histograms *)

Lemma total_insert (l : list Z) (n : nat) (v w : Z) :
  l !! n = Some v → total (<[n := w]> l) = total l - v + w.
Proof.
  revert n. induction l as [|x l IH]; intros [|n] H; simpl in *; try discriminate.
  - inversion H; subst. lia.
  - rewrite (IH n H). lia.
Qed.

(** [l[i] -= 1], whenever it returns, keeps the length of the list and
    takes one from its sum, also for an index that counts from the end. *)
Lemma list_decrement_total (l l' : list Z) i :
  list_decrement l i = Ok l' → length l' = length l ∧ total l' = total l - 1.
Proof.
  unfold list_decrement. destruct (py_index _ i) as [n|e]; [|discriminate].
  destruct (l !! n) as [v|] eqn:E; [|discriminate].
  intros [= <-]. split; [apply length_insert|].
  rewrite (total_insert _ _ _ _ E). lia.
Qed.

Section Histograms.

Variable submissions_dict : gmap string PyPlagSubmission.

Lemma remove_collision_totals name a b st st' metric h :
  metric = "MAX" ∨ metric = "AVG" →
  remove_collision name a b st = (Ok tt, st') →
  distributions (overview st) !! metric = Some h →
  ∃ h', distributions (overview st') !! metric = Some h'
        ∧ length h' = length h ∧ total h' = total h - 1.
Proof.
  intros Hm H Hh.
  apply remove_collision_Ok in H
    as (r & hM & vM & iM & hM' & hA & vA & iA & hA' & _ & HM & _ & _ & HdM & HA & _ & _ & HdA & ->).
  simpl. destruct Hm as [-> | ->].
  - rewrite lookup_insert_ne, lookup_insert_eq by discriminate.
    rewrite HM in Hh. inversion Hh; subst. eexists. split; [reflexivity|].
    eapply list_decrement_total; eauto.
  - rewrite lookup_insert_eq.
    rewrite HA in Hh. inversion Hh; subst. eexists. split; [reflexivity|].
    eapply list_decrement_total; eauto.
Qed.

Lemma loop_totals names st st' metric h :
  metric = "MAX" ∨ metric = "AVG" →
  for_each names (process_entry submissions_dict) st = (Ok tt, st') →
  distributions (overview st) !! metric = Some h →
  ∃ h', distributions (overview st') !! metric = Some h'
        ∧ length h' = length h
        ∧ total h' = total h - collisions submissions_dict names.
Proof.
  intros Hm. revert st h. unfold collisions.
  induction names as [|x names IH]; intros st h H Hh; simpl in H.
  - inversion H; subst. exists h. simpl. split; [assumption|]. split; [reflexivity|lia].
  - apply bind_Ok in H as ([] & s1 & Hstep & Hrest). simpl.
    apply process_entry_decision in Hstep as [[Hc ->]|(Hc & a & b & _ & Hstep)];
      rewrite Hc.
    + eapply IH; eauto.
    + destruct (remove_collision_totals _ _ _ _ _ _ _ Hm Hstep Hh) as (h1 & Hh1 & Hl1 & Ht1).
      destruct (IH _ _ Hrest Hh1) as (h' & Hh' & Hl' & Ht').
      exists h'. split; [assumption|]. split; [congruence|].
      rewrite Ht', Ht1. simpl length. lia.
Qed.

(** The loop changes no histogram but those of MAX and AVG, and nothing
    of the overview besides the three keys it reads. *)
Lemma loop_other_metrics names st st' :
  for_each names (process_entry submissions_dict) st = (Ok tt, st') →
  (∀ metric, metric ≠ "MAX" → metric ≠ "AVG" →
     distributions (overview st') !! metric = distributions (overview st) !! metric)
  ∧ overview_rest (overview st') = overview_rest (overview st)
  ∧ dom (distributions (overview st')) = dom (distributions (overview st)).
Proof.
  intros H.
  apply (for_each_invariant
           (fun s => (∀ metric, metric ≠ "MAX" → metric ≠ "AVG" →
                        distributions (overview s) !! metric
                        = distributions (overview st) !! metric)
                     ∧ overview_rest (overview s) = overview_rest (overview st)
                     ∧ dom (distributions (overview s)) = dom (distributions (overview st)))
           names (process_entry submissions_dict)) with (s := st); [|auto|exact H].
  intros x s s' _ (HI1 & HI2 & HI3) Hstep.
  apply process_entry_decision in Hstep as [[_ ->]|(_ & a & b & _ & Hstep)]; [auto|].
  apply remove_collision_Ok in Hstep
    as (r & hM & vM & iM & hM' & hA & vA & iA & hA' & _ & HM & _ & _ & _ & HA & _ & _ & _ & ->).
  simpl. split; [|split; [assumption|]].
  - intros metric H1 H2. rewrite !lookup_insert_ne by congruence. now apply HI1.
  - rewrite <- HI3. apply set_eq. intros k.
    rewrite !dom_insert, !elem_of_union, !elem_of_singleton.
    split; [|tauto]. intros [->|[->|Hk]]; [| |assumption]; eapply elem_of_dom_2; eauto.
Qed.

End Histograms.

(** ** The pairwise index *)

Section Index.

Variable submissions_dict : gmap string PyPlagSubmission.

(** The loop adds no reference to the index, and keeps every reference
    between two submissions that are not the pair of a collision entry
    among [names]. *)
Lemma loop_index names st st' :
  for_each names (process_entry submissions_dict) st = (Ok tt, st') →
  (∀ x y v,
     index_lookup (submission_ids_to_comparison_file_name (overview st')) x y = Some v →
     index_lookup (submission_ids_to_comparison_file_name (overview st)) x y = Some v)
  ∧ (∀ x y,
       (∀ name, In name names → collision submissions_dict name = true →
                ¬ entry_of_pair name x y) →
       index_lookup (submission_ids_to_comparison_file_name (overview st')) x y
       = index_lookup (submission_ids_to_comparison_file_name (overview st)) x y).
Proof.
  revert st. induction names as [|n names IH]; intros st H; simpl in H.
  - inversion H; subst. auto.
  - apply bind_Ok in H as ([] & s1 & Hstep & Hrest).
    destruct (IH _ Hrest) as [Hsub Hframe]. clear IH Hrest.
    apply process_entry_decision in Hstep as [[Hc ->]|(Hc & a & b & Hs & Hstep)].
    + split; [assumption|]. intros x y Hno. apply Hframe.
      intros name Hin. apply Hno. now right.
    + collision_state Hstep. simpl in *. split.
      * intros p q v Hv. eapply pruned_sub. eauto.
      * intros p q Hno. rewrite Hframe by (intros name Hin; apply Hno; now right).
        apply pruned_other.
        -- intros [-> ->]. apply (Hno n); [now left|assumption|]. now left.
        -- intros [-> ->]. apply (Hno n); [now left|assumption|]. now right.
Qed.

End Index.

(** ** Paths: [stem], [suffix] and [with_stem] *)

Lemma append_cons c (a b : string) : String c a +:+ b = String c (a +:+ b).
Proof. reflexivity. Qed.

Lemma length_append (a b : string) :
  String.length (a +:+ b) = (String.length a + String.length b)%nat.
Proof.
  induction a as [|c a IH]; [reflexivity|].
  rewrite append_cons. simpl. now rewrite IH.
Qed.

Lemma rfind_lt c s i : rfind c s = Some i → (i < String.length s)%nat.
Proof.
  revert i. induction s as [|a s IH]; simpl; intros i H; [discriminate|].
  destruct (rfind c s) as [j|].
  - inversion H; subst. specialize (IH j eq_refl). lia.
  - destruct (Ascii.eqb a c); inversion H. lia.
Qed.

Lemma substring_all s : substring 0 (String.length s) s = s.
Proof. induction s as [|c s IH]; simpl; congruence. Qed.

Lemma substring_split s i :
  (i <= String.length s)%nat →
  substring 0 i s +:+ substring i (String.length s - i) s = s.
Proof.
  revert i. induction s as [|c s IH]; intros [|i] Hi.
  - reflexivity.
  - simpl in Hi. lia.
  - rewrite Nat.sub_0_r.
    change (substring 0 0 (String c s)) with "".
    change ("" +:+ substring 0 (String.length (String c s)) (String c s))
      with (substring 0 (String.length (String c s)) (String c s)).
    apply substring_all.
  - change (String c (substring 0 i s +:+ substring i (String.length s - i) s) = String c s).
    f_equal. apply IH. simpl in Hi. lia.
Qed.

Lemma append_empty_r s : s +:+ "" = s.
Proof.
  induction s as [|c s IH]; [reflexivity|].
  change (String c (s +:+ "") = String c s). now rewrite IH.
Qed.

(** A file name is its stem followed by its suffix. *)
Lemma stem_suffix name : stem name +:+ suffix name = name.
Proof.
  unfold stem, suffix. destruct (rfind dot name) as [i|] eqn:E.
  - destruct ((0 <? i)%nat && (i <? String.length name - 1)%nat).
    + apply substring_split. apply rfind_lt in E. lia.
    + apply append_empty_r.
  - apply append_empty_r.
Qed.

Lemma append_assoc (a b c : string) : (a +:+ b) +:+ c = a +:+ (b +:+ c).
Proof.
  induction a as [|x a IH]; [reflexivity|].
  rewrite !append_cons. now rewrite IH.
Qed.

(** The path that [with_stem] derives with the [.min] qualifier is never
    the path it starts from. *)
Lemma with_stem_min_differs (report report_min : path) :
  with_stem report (stem (path_name report) +:+ ".min") = Ok report_min →
  report_min ≠ report.
Proof.
  intros H Heq. subst report_min.
  assert (Hne : report ≠ []) by (intros ->; discriminate H).
  assert (H1 : removelast report
                 ++ [(stem (path_name report) +:+ ".min") +:+ suffix (path_name report)]
               = report).
  { unfold with_stem in H. destruct report; [congruence|]. injection H as H. exact H. }
  clear H.
  assert (H2 : removelast report
                 ++ [(stem (path_name report) +:+ ".min") +:+ suffix (path_name report)]
               = removelast report ++ [path_name report]).
  { rewrite H1. now apply app_removelast_last. }
  apply app_inv_head in H2. inversion H2 as [Hname].
  apply (f_equal String.length) in Hname.
  rewrite !length_append in Hname.
  pose proof (f_equal String.length (stem_suffix (path_name report))) as Hlen.
  rewrite length_append in Hlen. simpl in Hname. lia.
Qed.

Lemma rfind_append c a b :
  rfind c (a +:+ b)
  = match rfind c b with
    | Some i => Some (String.length a + i)%nat
    | None => rfind c a
    end.
Proof.
  induction a as [|x a IH].
  - change ("" +:+ b) with b. now destruct (rfind c b).
  - rewrite append_cons. simpl. rewrite IH. now destruct (rfind c b).
Qed.

Lemma substring_prefix a b : substring 0 (String.length a) (a +:+ b) = a.
Proof.
  induction a as [|x a IH].
  - now destruct b.
  - rewrite append_cons. simpl. now rewrite IH.
Qed.

Lemma substring_suffix a b :
  substring (String.length a) (String.length b) (a +:+ b) = b.
Proof.
  induction a as [|x a IH].
  - apply substring_all.
  - rewrite append_cons. exact IH.
Qed.

(** The report of a language and its minimized sibling. *)
Lemma with_stem_min_jplag (d : path) (lang : string) :
  lang ≠ "" →
  with_stem (d ++ [lang +:+ ".jplag"])
    (stem (path_name (d ++ [lang +:+ ".jplag"])) +:+ ".min")
  = Ok (d ++ [lang +:+ ".min.jplag"]).
Proof.
  intros Hlang. unfold with_stem, path_name.
  destruct (d ++ [lang +:+ ".jplag"]) as [|c l] eqn:E.
  { destruct d; discriminate. }
  rewrite <- E. clear E c l. rewrite last_last, removelast_last. f_equal. f_equal.
  assert (Hfind : rfind dot (lang +:+ ".jplag") = Some (String.length lang)).
  { rewrite rfind_append. simpl. f_equal. lia. }
  assert (Hcond : ((0 <? String.length lang)%nat
                   && (String.length lang <? String.length (lang +:+ ".jplag") - 1)%nat)
                  = true).
  { rewrite length_append. simpl. apply andb_true_iff. split.
    - apply Nat.ltb_lt. destruct lang; [contradiction|simpl; lia].
    - apply Nat.ltb_lt. lia. }
  unfold stem, suffix. rewrite Hfind, Hcond.
  rewrite substring_prefix.
  replace (String.length (lang +:+ ".jplag") - String.length lang)%nat
    with (String.length ".jplag") by (rewrite length_append; simpl; lia).
  rewrite substring_suffix. now rewrite append_assoc.
Qed.

(** ** The pass as a whole *)

(** A pass that returns: the archive it read, the overview it loaded, the
    state after the loop, and the archive it wrote. *)
Lemma post_process_returns (report : path) (submissions : list PyPlagSubmission)
    (w w' : world) (paths : path * path) :
  _post_process_jplag_results report submissions w = (Ok paths, w') →
  ∃ a o st1,
    w !! report = Some (ZipArchive a)
    ∧ load_overview (extractall a) = Ok o
    ∧ for_each (dir_names (extractall a))
        (process_entry (make_submissions_dict submissions))
        {| scratch := extractall a; overview := o; trace := [] |} = (Ok tt, st1)
    ∧ w' !! snd paths
      = Some (ZipArchive
                (walk_files (dir_write "overview.json" (NFile [DOverview (overview st1)])
                               (scratch st1))))
    ∧ load_overview
        (walk_files (dir_write "overview.json" (NFile [DOverview (overview st1)])
                       (scratch st1)))
      = Ok (overview st1).
Proof.
  intros H.
  apply post_process_Ok in H as (report_min & a & st & _ & Hw & Hs & -> & ->).
  apply sanitize_Ok in Hs as (o & st1 & Ho & Hloop & ->).
  exists a, o, st1. repeat (split; [assumption|]). simpl.
  split; [apply lookup_insert_eq|apply load_overview_dumped].
Qed.





(** X3. When the pass returns, each of the MAX and AVG histograms of the
    input overview has kept its length, and the sum of its counts has gone
    down by exactly the number of collision entries of the archive,
    whatever the similarity values were. *)
Theorem histogram_totals (report : path)
    (submissions : list PyPlagSubmission) (w w' : world) (paths : path * path) :
  _post_process_jplag_results report submissions w = (Ok paths, w') →
  ∃ a o out o',
    w !! report = Some (ZipArchive a)
    ∧ load_overview (extractall a) = Ok o
    ∧ w' !! snd paths = Some (ZipArchive out)
    ∧ load_overview out = Ok o'
    ∧ ∀ metric h,
        metric = "MAX" ∨ metric = "AVG" →
        distributions o !! metric = Some h →
        ∃ h', distributions o' !! metric = Some h'
              ∧ length h' = length h
              ∧ total h'
                = total h - collisions (make_submissions_dict submissions)
                              (dir_names (extractall a)).
Proof.
  intros H. apply post_process_returns in H as (a & o & st1 & Hw & Ho & Hloop & Hout & Ho').
  exists a, o. eexists _, (overview st1). repeat (split; [eassumption|]).
  intros metric h Hm Hh. eapply loop_totals; eauto.
Qed.

Lemma histogram_totals_witness :
  ∃ a o out o',
    demo_world !! demo_report = Some (ZipArchive a)
    ∧ load_overview (extractall a) = Ok o
    ∧ snd (_post_process_jplag_results demo_report demo_submissions demo_world)
        !! demo_report_min = Some (ZipArchive out)
    ∧ load_overview out = Ok o'
    ∧ ∀ metric h,
        metric = "MAX" ∨ metric = "AVG" →
        distributions o !! metric = Some h →
        ∃ h', distributions o' !! metric = Some h'
              ∧ length h' = length h
              ∧ total h'
                = total h - collisions (make_submissions_dict demo_submissions)
                              (dir_names (extractall a)).
Proof.
  apply (histogram_totals demo_report demo_submissions demo_world
           (snd (_post_process_jplag_results demo_report demo_submissions demo_world))
           (demo_report, demo_report_min)).
  by_computation.
Defined.

(** X4. When the pass returns, the overview it has written has the
    histogram of every metric other than MAX and AVG as the input had it
    (or still has none), has histograms for the same metrics, and has the
    rest of the document unchanged. *)
Theorem other_metrics_pass_through (report : path)
    (submissions : list PyPlagSubmission) (w w' : world) (paths : path * path) :
  _post_process_jplag_results report submissions w = (Ok paths, w') →
  ∃ a o out o',
    w !! report = Some (ZipArchive a)
    ∧ load_overview (extractall a) = Ok o
    ∧ w' !! snd paths = Some (ZipArchive out)
    ∧ load_overview out = Ok o'
    ∧ (∀ metric, metric ≠ "MAX" → metric ≠ "AVG" →
         distributions o' !! metric = distributions o !! metric)
    ∧ overview_rest o' = overview_rest o
    ∧ dom (distributions o') = dom (distributions o).
Proof.
  intros H. apply post_process_returns in H as (a & o & st1 & Hw & Ho & Hloop & Hout & Ho').
  exists a, o. eexists _, (overview st1). repeat (split; [eassumption|]).
  apply (loop_other_metrics _ _ _ _ Hloop).
Qed.

Lemma other_metrics_pass_through_witness :
  ∃ a o out o',
    demo_world !! demo_report = Some (ZipArchive a)
    ∧ load_overview (extractall a) = Ok o
    ∧ snd (_post_process_jplag_results demo_report demo_submissions demo_world)
        !! demo_report_min = Some (ZipArchive out)
    ∧ load_overview out = Ok o'
    ∧ (∀ metric, metric ≠ "MAX" → metric ≠ "AVG" →
         distributions o' !! metric = distributions o !! metric)
    ∧ overview_rest o' = overview_rest o
    ∧ dom (distributions o') = dom (distributions o).
Proof.
  apply (other_metrics_pass_through demo_report demo_submissions demo_world
           (snd (_post_process_jplag_results demo_report demo_submissions demo_world))
           (demo_report, demo_report_min)).
  by_computation.
Defined.

(** X5. When the pass returns, the pairwise index it has written has no
    reference that the input did not have, and it still has every
    reference between two submissions that are not the pair of a collision
    entry of the archive. *)
Theorem index_loses_only_collision_pairs (report : path)
    (submissions : list PyPlagSubmission) (w w' : world) (paths : path * path) :
  _post_process_jplag_results report submissions w = (Ok paths, w') →
  ∃ a o out o',
    w !! report = Some (ZipArchive a)
    ∧ load_overview (extractall a) = Ok o
    ∧ w' !! snd paths = Some (ZipArchive out)
    ∧ load_overview out = Ok o'
    ∧ (∀ x y v,
         index_lookup (submission_ids_to_comparison_file_name o') x y = Some v →
         index_lookup (submission_ids_to_comparison_file_name o) x y = Some v)
    ∧ (∀ x y,
         (∀ name, In name (dir_names (extractall a)) →
                  collision (make_submissions_dict submissions) name = true →
                  ¬ entry_of_pair name x y) →
         index_lookup (submission_ids_to_comparison_file_name o') x y
         = index_lookup (submission_ids_to_comparison_file_name o) x y).
Proof.
  intros H. apply post_process_returns in H as (a & o & st1 & Hw & Ho & Hloop & Hout & Ho').
  exists a, o. eexists _, (overview st1). repeat (split; [eassumption|]).
  apply (loop_index _ _ _ _ Hloop).
Qed.

Lemma index_loses_only_collision_pairs_witness :
  ∃ a o out o',
    demo_world !! demo_report = Some (ZipArchive a)
    ∧ load_overview (extractall a) = Ok o
    ∧ snd (_post_process_jplag_results demo_report demo_submissions demo_world)
        !! demo_report_min = Some (ZipArchive out)
    ∧ load_overview out = Ok o'
    ∧ (∀ x y v,
         index_lookup (submission_ids_to_comparison_file_name o') x y = Some v →
         index_lookup (submission_ids_to_comparison_file_name o) x y = Some v)
    ∧ (∀ x y,
         (∀ name, In name (dir_names (extractall a)) →
                  collision (make_submissions_dict demo_submissions) name = true →
                  ¬ entry_of_pair name x y) →
         index_lookup (submission_ids_to_comparison_file_name o') x y
         = index_lookup (submission_ids_to_comparison_file_name o) x y).
Proof.
  apply (index_loses_only_collision_pairs demo_report demo_submissions demo_world
           (snd (_post_process_jplag_results demo_report demo_submissions demo_world))
           (demo_report, demo_report_min)).
  by_computation.
Defined.

(** X6. When the pass returns, it returns the report path it was given and
    a minimized path that differs from it, and the file system is the one
    it started from but for the archive at the minimized path: the input
    archive is never overwritten. *)
Theorem input_archive_is_preserved (report : path)
    (submissions : list PyPlagSubmission) (w w' : world) (paths : path * path) :
  _post_process_jplag_results report submissions w = (Ok paths, w') →
  fst paths = report
  ∧ snd paths ≠ report
  ∧ w' !! report = w !! report
  ∧ ∀ p : path, p ≠ snd paths → w' !! p = w !! p.
Proof.
  intros H. apply post_process_Ok in H as (report_min & a & st & Hmin & _ & _ & -> & ->).
  apply with_stem_min_differs in Hmin. simpl.
  split; [reflexivity|]. split; [assumption|].
  split; [now apply lookup_insert_ne|].
  intros p Hp. apply lookup_insert_ne. congruence.
Qed.

Lemma input_archive_is_preserved_witness :
  snd (_post_process_jplag_results demo_report demo_submissions demo_world) !! demo_report
  = demo_world !! demo_report.
Proof.
  destruct (input_archive_is_preserved demo_report demo_submissions demo_world
              (snd (_post_process_jplag_results demo_report demo_submissions demo_world))
              (demo_report, demo_report_min)) as (_ & _ & Hkept & _).
  - by_computation.
  - exact Hkept.
Defined.

(** ** Late failures *)

(** X7. A report with a collision entry and an overview that lacks the
    MAX or the AVG histogram makes the pass raise, although the overview
    itself loads; nothing is written. *)
Theorem missing_histogram_is_fatal (report : path)
    (submissions : list PyPlagSubmission) (w : world) (a : directory)
    (o : overview_doc) (name metric : string) :
  w !! report = Some (ZipArchive a) →
  load_overview (extractall a) = Ok o →
  In name (dir_names (extractall a)) →
  collision (make_submissions_dict submissions) name = true →
  metric = "MAX" ∨ metric = "AVG" →
  distributions o !! metric = None →
  ∃ e, _post_process_jplag_results report submissions w = (Raise e, w).
Proof.
  intros Hw Ho Hin Hc Hm Hnone.
  destruct (_post_process_jplag_results report submissions w) as [[paths|e] w'] eqn:E.
  - exfalso.
    apply post_process_returns in E as (a' & o' & st1 & Hw' & Ho' & Hloop & _ & _).
    rewrite Hw in Hw'. inversion Hw'; subst a'. rewrite Ho in Ho'. inversion Ho'; subst o'.
    destruct (for_each_reaches _ _ _ _ _ Hin Hloop) as (l1 & l2 & s1 & s2 & _ & Hl1 & Hstep & _).
    apply process_entry_decision in Hstep as [[Hc' _]|(_ & x & y & _ & Hstep)]; [congruence|].
    apply remove_collision_Ok in Hstep
      as (r & hM & vM & iM & hM' & hA & vA & iA & hA' & _ & HM & _ & _ & _ & HA & _).
    destruct (loop_other_metrics _ _ _ _ Hl1) as (_ & _ & Hdom). simpl in Hdom.
    assert (Hin' : metric ∈ dom (distributions o)).
    { rewrite <- Hdom. destruct Hm as [-> | ->]; eapply elem_of_dom_2; eauto. }
    apply elem_of_dom in Hin' as [h Hh]. congruence.
  - exists e. f_equal. eapply post_process_failure_keeps_world; eauto.
Qed.

Lemma missing_histogram_is_fatal_witness :
  ∃ e, _post_process_jplag_results demo_report demo_submissions
         (<[demo_report :=
              ZipArchive [("overview.json",
                           NFile [DOverview (set_distributions (delete "AVG") demo_overview)]);
                          ("one-two.json", NFile [DComparison one_two])]]> demo_world)
       = (Raise e,
          <[demo_report :=
              ZipArchive [("overview.json",
                           NFile [DOverview (set_distributions (delete "AVG") demo_overview)]);
                          ("one-two.json", NFile [DComparison one_two])]]> demo_world).
Proof.
  apply (missing_histogram_is_fatal demo_report demo_submissions _
           [("overview.json",
             NFile [DOverview (set_distributions (delete "AVG") demo_overview)]);
            ("one-two.json", NFile [DComparison one_two])]
           (set_distributions (delete "AVG") demo_overview) "one-two.json" "AVG").
  - by_computation.
  - reflexivity.
  - right. left. reflexivity.
  - by_computation.
  - now right.
  - by_computation.
Defined.

Lemma split_append_sep_count sep a b :
  length (split sep (a +:+ String sep b))
  = (length (split sep a) + length (split sep b))%nat.
Proof.
  induction a as [|c a IH].
  - change ("" +:+ String sep b) with (String sep b). simpl.
    now rewrite Ascii.eqb_refl.
  - rewrite append_cons. simpl. destruct (Ascii.eqb c sep); simpl.
    + now rewrite IH.
    + pose proof (split_nonempty sep (a +:+ String sep b)) as H1.
      pose proof (split_nonempty sep a) as H2.
      destruct (split sep (a +:+ String sep b)); [contradiction|].
      destruct (split sep a); [contradiction|]. simpl in *. exact IH.
Qed.

(** X8. An entry whose name has more than one dash before its extension,
    as the comparison of a submission whose id contains a dash has, makes
    the pass raise; nothing is written. *)
Theorem second_dash_is_fatal (report : path)
    (submissions : list PyPlagSubmission) (w : world) (a : directory)
    (name x y z : string) :
  w !! report = Some (ZipArchive a) →
  In name (dir_names (extractall a)) →
  stem name = x +:+ String dash (y +:+ String dash z) →
  ∃ e, _post_process_jplag_results report submissions w = (Raise e, w).
Proof.
  intros Hw Hin Hstem.
  destruct (_post_process_jplag_results report submissions w) as [[paths|e] w'] eqn:E.
  - exfalso.
    apply post_process_returns in E as (a' & o' & st1 & Hw' & _ & Hloop & _ & _).
    rewrite Hw in Hw'. inversion Hw'; subst a'.
    destruct (for_each_reaches _ _ _ _ _ Hin Hloop) as (l1 & l2 & s1 & s2 & _ & _ & Hstep & _).
    pose proof (split_append_sep_count dash x (y +:+ String dash z)) as Hlen.
    rewrite <- Hstem in Hlen. rewrite (split_append_sep_count dash y z) in Hlen.
    pose proof (split_nonempty dash x). pose proof (split_nonempty dash y).
    pose proof (split_nonempty dash z).
    assert (3 <= length (split dash (stem name)))%nat.
    { destruct (split dash x), (split dash y), (split dash z); simpl in *;
        try contradiction; lia. }
    apply process_entry_Ok in Hstep as [[Hi _]|(_ & p & q & _ & _ & Hs & _)].
    + apply ignore_files_split in Hi. lia.
    + rewrite Hs in *. simpl in *. lia.
  - exists e. f_equal. eapply post_process_failure_keeps_world; eauto.
Qed.

Lemma second_dash_is_fatal_witness :
  ∃ e, _post_process_jplag_results demo_report demo_submissions
         (<[demo_report :=
              ZipArchive [("overview.json", NFile [DOverview demo_overview]);
                          ("one-b-two.json", NFile [DComparison one_two])]]> demo_world)
       = (Raise e,
          <[demo_report :=
              ZipArchive [("overview.json", NFile [DOverview demo_overview]);
                          ("one-b-two.json", NFile [DComparison one_two])]]> demo_world).
Proof.
  apply (second_dash_is_fatal demo_report demo_submissions _
           [("overview.json", NFile [DOverview demo_overview]);
            ("one-b-two.json", NFile [DComparison one_two])]
           "one-b-two.json" "one" "b" "two").
  - by_computation.
  - right. left. reflexivity.
  - reflexivity.
Defined.

(** ** Archives without collisions, and filtering twice *)

















(** ** The dictionary of submissions and the staging directory *)





Lemma stage_raise (submissions : list PyPlagSubmission) e :
  fold_left stage_step submissions (Raise e) = Raise e.
Proof. induction submissions as [|s l IH]; simpl; auto. Qed.

Lemma stage_from (submissions : list PyPlagSubmission)
    (acc : gmap string (gmap string string)) :
  let staged := fold_left stage_step submissions (Ok acc) in
  (NoDup (map id submissions) ∧ (∀ s, In s submissions → acc !! id s = None) →
   ∃ d, staged = Ok d
        ∧ (∀ s, In s submissions → d !! id s = Some (files s))
        ∧ (∀ k, (∀ s, In s submissions → id s ≠ k) → d !! k = acc !! k))
  ∧ (¬ (NoDup (map id submissions) ∧ (∀ s, In s submissions → acc !! id s = None)) →
     staged = Raise FileExistsError).
Proof.
  revert acc. induction submissions as [|s0 l IH]; intros acc; simpl.
  - split.
    + intros _. exists acc. split; [reflexivity|]. split; [intros s []|auto].
    + intros H. exfalso. apply H. split; [constructor|intros s []].
  - destruct (acc !! id s0) as [x|] eqn:E.
    + split.
      * intros [_ H]. rewrite H in E by (now left). discriminate.
      * intros _. apply stage_raise.
    + destruct (IH (<[id s0 := files s0]> acc)) as [IHok IHbad]. split.
      * intros [Hnd Hfree]. apply NoDup_cons in Hnd as [Hno Hnd].
        destruct IHok as (d & Hd & Hfiles & Hother).
        { split; [assumption|]. intros s Hs. rewrite lookup_insert_ne.
          - apply Hfree. now right.
          - intros Heq. apply Hno. rewrite Heq. apply list_elem_of_In. now apply in_map. }
        exists d. split; [assumption|]. split.
        -- intros s [<-|Hs]; [|now apply Hfiles].
           rewrite Hother; [apply lookup_insert_eq|].
           intros s' Hs' Heq. apply Hno. rewrite <- Heq.
           apply list_elem_of_In. now apply in_map.
        -- intros k Hk. rewrite Hother by (intros s Hs; apply Hk; now right).
           apply lookup_insert_ne. apply Hk. now left.
      * intros Hbad. apply IHbad. intros [Hnd Hfree]. apply Hbad. split.
        -- apply NoDup_cons. split; [|assumption].
           intros Hin. apply list_elem_of_In, in_map_iff in Hin as (s & Hid & Hs).
           specialize (Hfree s Hs). rewrite Hid, lookup_insert_eq in Hfree. discriminate.
        -- intros s [<-|Hs]; [assumption|].
           specialize (Hfree s Hs).
           destruct (decide (id s0 = id s)) as [Heq|Hne].
           ++ rewrite Heq, lookup_insert_eq in Hfree. discriminate.
           ++ now rewrite lookup_insert_ne in Hfree.
Qed.


Lemma stage_duplicate (submissions : list PyPlagSubmission) :
  ¬ NoDup (map id submissions) →
  stage_submissions submissions = Raise FileExistsError.
Proof.
  change (stage_submissions submissions) with (fold_left stage_step submissions (Ok ∅)).
  destruct (stage_from submissions ∅) as [_ Hbad].
  intros Hnd. apply Hbad. tauto.
Qed.



(** ** Making the report directory *)

Lemma mkdir_from_creates (base : path) (rest : list string) (w w1 : world) :
  mkdir_from base rest w = (Ok tt, w1) → rest ≠ [] →
  w1 !! (base ++ rest) = Some Directory.
Proof.
  revert base w. induction rest as [|c rest IH]; intros base w H Hne; [congruence|].
  simpl in H. apply bind_Ok in H as ([] & s1 & Hstep & H).
  assert (Hdir : s1 !! (base ++ [c]) = Some Directory).
  { destruct (w !! (base ++ [c])) as [[| |]|] eqn:E; inversion Hstep; subst; auto.
    apply lookup_insert_eq. }
  destruct rest as [|c' rest].
  - simpl in H. unfold ret in H. inversion H; subst. exact Hdir.
  - replace (base ++ c :: c' :: rest) with ((base ++ [c]) ++ c' :: rest)
      by (now rewrite <- app_assoc).
    eapply IH; [exact H|discriminate].
Qed.

Lemma mkdir_from_frame (base : path) (rest : list string) (w w1 : world) (q : path) :
  mkdir_from base rest w = (Ok tt, w1) → ¬ q `prefix_of` base ++ rest →
  w1 !! q = w !! q.
Proof.
  revert base w. induction rest as [|c rest IH]; intros base w H Hq; simpl in H.
  - unfold ret in H. now inversion H.
  - apply bind_Ok in H as ([] & s1 & Hstep & H).
    rewrite (IH _ _ H) by (now rewrite <- app_assoc).
    destruct (w !! (base ++ [c])) as [[| |]|] eqn:E; inversion Hstep; subst; auto.
    apply lookup_insert_ne. intros <-. apply Hq. exists rest. now rewrite <- app_assoc.
Qed.

(** ** [run] *)

Section RunProperties.

Variable subprocess_run : jplag_command → py world CompletedProcess.

(** The call of the detector and what follows it (lines 78-109). *)
Lemma run_reaches_detector (self : PyPlag) (lang : string)
    (submissions : list PyPlagSubmission) (w w1 : world)
    (staged : gmap string (gmap string string)) :
  lang ∈ supported_languages self ∨ ignore_unsupported_language (settings self) = true →
  mkdir (report_dir (settings self)) w = (Ok tt, w1) →
  (1 < length submissions)%nat →
  stage_submissions submissions = Ok staged →
  run subprocess_run self lang submissions w
  = (let* result :=
       subprocess_run
         {| cmd_java := java_cmd (settings self);
            cmd_jar := jplag_jar (settings self);
            cmd_lang := lang;
            cmd_mode := "RUN";
            cmd_report := report_dir (settings self) ++ [lang +:+ ".jplag"];
            cmd_extra_args := if clustering (settings self) then [] else ["--cluster-skip"];
            cmd_submissions_dir := staged |} in
     let* paths :=
       (if (returncode result =? 0) && filter_runs_by_author (settings self)
        then let* p := _post_process_jplag_results
                         (report_dir (settings self) ++ [lang +:+ ".jplag"]) submissions in
             ret (fst p, Some (snd p))
        else ret (report_dir (settings self) ++ [lang +:+ ".jplag"], None)) in
     ret {| status := returncode result;
            stdout := proc_stdout result;
            stderr := proc_stderr result;
            report_path := fst paths;
            report_min_path := snd paths |})%py w1.
Proof.
  intros Hlang Hmk Hlen Hstage. unfold run.
  assert (Hcheck : negb (bool_decide (lang ∈ supported_languages self))
                   && negb (ignore_unsupported_language (settings self)) = false).
  { destruct Hlang as [Hin| ->].
    - now rewrite bool_decide_eq_true_2.
    - now rewrite andb_false_r. }
  rewrite Hcheck.
  erewrite bind_step by reflexivity.
  erewrite bind_step by exact Hmk.
  destruct (Nat.leb_spec (length submissions) 1) as [?|_]; [lia|].
  erewrite bind_step by reflexivity.
  erewrite bind_step by (unfold lift; rewrite Hstage; reflexivity).
  erewrite bind_step by (eapply mkdir_from_again; exact Hmk).
  reflexivity.
Qed.

(** X13. A language that is not in the list is rejected before anything
    else happens, unless the settings say to ignore this: [run] raises
    [PyPlagException] naming the language, the file system is as it was
    (the report directory is not made) and the detector is not called. *)
Theorem unsupported_language_is_rejected (self : PyPlag) (lang : string)
    (submissions : list PyPlagSubmission) (w : world) :
  lang ∉ supported_languages self →
  ignore_unsupported_language (settings self) = false →
  run subprocess_run self lang submissions w
  = (Raise (PyPlagException
              ("Attempted to run JPlag on submissions in unsupported language '"
               +:+ lang +:+ "'")), w).
Proof.
  intros Hlang Hign. unfold run.
  rewrite bool_decide_eq_false_2 by assumption. rewrite Hign. reflexivity.
Qed.

(** X14. With fewer than two submissions [run] raises [PyPlagException]
    without calling the detector, but only after it has made the report
    directory: the directory exists afterwards, and no path that was
    there before has changed. *)
Theorem too_few_submissions (self : PyPlag) (lang : string)
    (submissions : list PyPlagSubmission) (w w1 : world) :
  lang ∈ supported_languages self ∨ ignore_unsupported_language (settings self) = true →
  mkdir (report_dir (settings self)) w = (Ok tt, w1) →
  (length submissions ≤ 1)%nat →
  run subprocess_run self lang submissions w
  = (Raise (PyPlagException "Too few submissions"), w1)
  ∧ (report_dir (settings self) ≠ [] → w1 !! report_dir (settings self) = Some Directory)
  ∧ (∀ (q : path) (x : fsnode), w !! q = Some x → w1 !! q = Some x).
Proof.
  intros Hlang Hmk Hlen. split; [|split].
  - unfold run.
    assert (Hcheck : negb (bool_decide (lang ∈ supported_languages self))
                     && negb (ignore_unsupported_language (settings self)) = false).
    { destruct Hlang as [Hin| ->].
      - now rewrite bool_decide_eq_true_2.
      - now rewrite andb_false_r. }
    rewrite Hcheck.
    erewrite bind_step by reflexivity.
    erewrite bind_step by exact Hmk.
    destruct (Nat.leb_spec (length submissions) 1) as [_|?]; [|lia].
    reflexivity.
  - intros Hne. now apply (mkdir_from_creates [] _ _ _ Hmk).
  - intros q x. now apply (mkdir_from_keeps _ _ _ _ _ _ Hmk).
Qed.


(** X16. When the detector returns status 0 and the filter is on, and the
    pass returns, [run] returns the detector's status and output with
    [report_path] the detector's report [report_dir/lang.jplag] and
    [report_min_path] the path [report_dir/lang.min.jplag]; the file
    system is the one the pass left, in which the detector's report is
    unchanged. *)
Theorem filtered_run_reports_both_paths (self : PyPlag) (lang : string)
    (submissions : list PyPlagSubmission) (w w1 w2 w3 : world)
    (staged : gmap string (gmap string string)) (result : CompletedProcess)
    (paths : path * path) :
  lang ≠ "" →
  lang ∈ supported_languages self ∨ ignore_unsupported_language (settings self) = true →
  mkdir (report_dir (settings self)) w = (Ok tt, w1) →
  (1 < length submissions)%nat →
  stage_submissions submissions = Ok staged →
  subprocess_run
    {| cmd_java := java_cmd (settings self);
       cmd_jar := jplag_jar (settings self);
       cmd_lang := lang;
       cmd_mode := "RUN";
       cmd_report := report_dir (settings self) ++ [lang +:+ ".jplag"];
       cmd_extra_args := if clustering (settings self) then [] else ["--cluster-skip"];
       cmd_submissions_dir := staged |} w1 = (Ok result, w2) →
  returncode result = 0 →
  filter_runs_by_author (settings self) = true →
  _post_process_jplag_results (report_dir (settings self) ++ [lang +:+ ".jplag"])
    submissions w2 = (Ok paths, w3) →
  run subprocess_run self lang submissions w
  = (Ok {| status := 0;
           stdout := proc_stdout result;
           stderr := proc_stderr result;
           report_path := report_dir (settings self) ++ [lang +:+ ".jplag"];
           report_min_path := Some (report_dir (settings self) ++ [lang +:+ ".min.jplag"]) |},
     w3)
  ∧ w3 !! (report_dir (settings self) ++ [lang +:+ ".jplag"])
    = w2 !! (report_dir (settings self) ++ [lang +:+ ".jplag"]).
Proof.
  intros Hne Hlang Hmk Hlen Hstage Hrun Hrc Hfilter Hpass.
  rewrite (run_reaches_detector _ _ _ _ _ _ Hlang Hmk Hlen Hstage).
  erewrite bind_step by exact Hrun.
  rewrite Hrc, Hfilter. simpl andb. cbv iota.
  pose proof Hpass as Hpass'.
  apply post_process_Ok in Hpass' as (report_min & a & st & Hmin & Hw & _ & -> & ->).
  rewrite (with_stem_min_jplag _ _ Hne) in Hmin. injection Hmin as <-.
  split.
  - unfold bind at 1. unfold bind at 1. rewrite Hpass. reflexivity.
  - apply lookup_insert_ne. intros Heq. apply app_inv_head in Heq.
    injection Heq as Heq. apply (f_equal String.length) in Heq.
    rewrite !length_append in Heq. simpl in Heq. lia.
Qed.

(** X17. An exception of the pass is not caught by [run]: it leaves [run]
    as it is, with the file system that the detector left. *)
Theorem pass_failure_leaves_run (self : PyPlag) (lang : string)
    (submissions : list PyPlagSubmission) (w w1 w2 w3 : world)
    (staged : gmap string (gmap string string)) (result : CompletedProcess)
    (e : exn) :
  lang ∈ supported_languages self ∨ ignore_unsupported_language (settings self) = true →
  mkdir (report_dir (settings self)) w = (Ok tt, w1) →
  (1 < length submissions)%nat →
  stage_submissions submissions = Ok staged →
  subprocess_run
    {| cmd_java := java_cmd (settings self);
       cmd_jar := jplag_jar (settings self);
       cmd_lang := lang;
       cmd_mode := "RUN";
       cmd_report := report_dir (settings self) ++ [lang +:+ ".jplag"];
       cmd_extra_args := if clustering (settings self) then [] else ["--cluster-skip"];
       cmd_submissions_dir := staged |} w1 = (Ok result, w2) →
  returncode result = 0 →
  filter_runs_by_author (settings self) = true →
  _post_process_jplag_results (report_dir (settings self) ++ [lang +:+ ".jplag"])
    submissions w2 = (Raise e, w3) →
  run subprocess_run self lang submissions w = (Raise e, w2).
Proof.
  intros Hlang Hmk Hlen Hstage Hrun Hrc Hfilter Hpass.
  rewrite (run_reaches_detector _ _ _ _ _ _ Hlang Hmk Hlen Hstage).
  erewrite bind_step by exact Hrun.
  rewrite Hrc, Hfilter. simpl andb. cbv iota.
  pose proof (post_process_failure_keeps_world _ _ _ _ _ Hpass) as ->.
  unfold bind at 1. unfold bind at 1. rewrite Hpass. reflexivity.
Qed.

(** What a returning [run] has gone through. *)
Lemma run_returns (self : PyPlag) (lang : string)
    (submissions : list PyPlagSubmission) (w w' : world) (rpt : PyPlagReport) :
  run subprocess_run self lang submissions w = (Ok rpt, w') →
  ∃ (w1 w2 : world) (staged : gmap string (gmap string string)) (result : CompletedProcess),
    (lang ∈ supported_languages self ∨ ignore_unsupported_language (settings self) = true)
    ∧ mkdir (report_dir (settings self)) w = (Ok tt, w1)
    ∧ (1 < length submissions)%nat
    ∧ stage_submissions submissions = Ok staged
    ∧ subprocess_run
        {| cmd_java := java_cmd (settings self);
           cmd_jar := jplag_jar (settings self);
           cmd_lang := lang;
           cmd_mode := "RUN";
           cmd_report := report_dir (settings self) ++ [lang +:+ ".jplag"];
           cmd_extra_args := if clustering (settings self) then [] else ["--cluster-skip"];
           cmd_submissions_dir := staged |} w1 = (Ok result, w2)
    ∧ status rpt = returncode result
    ∧ stdout rpt = proc_stdout result
    ∧ stderr rpt = proc_stderr result
    ∧ ((returncode result = 0 ∧ filter_runs_by_author (settings self) = true
        ∧ ∃ paths, _post_process_jplag_results
                     (report_dir (settings self) ++ [lang +:+ ".jplag"]) submissions w2
                   = (Ok paths, w')
                   ∧ report_path rpt = fst paths
                   ∧ report_min_path rpt = Some (snd paths))
       ∨ ((returncode result ≠ 0 ∨ filter_runs_by_author (settings self) = false)
          ∧ w' = w2
          ∧ report_path rpt = report_dir (settings self) ++ [lang +:+ ".jplag"]
          ∧ report_min_path rpt = None)).
Proof.
  intros H. unfold run in H.
  apply bind_Ok in H as ([] & s0 & Hcheck & H).
  assert (Hlang : lang ∈ supported_languages self
                  ∨ ignore_unsupported_language (settings self) = true).
  { destruct (decide (lang ∈ supported_languages self)) as [?|Hn]; [now left|].
    destruct (ignore_unsupported_language (settings self)); [now right|].
    rewrite bool_decide_eq_false_2 in Hcheck by assumption. discriminate. }
  assert (s0 = w) as ->.
  { destruct (negb _ && negb _); [discriminate|]. now inversion Hcheck. }
  apply bind_Ok in H as ([] & w1 & Hmk & H).
  apply bind_Ok in H as ([] & s1 & Hlen & H).
  destruct (Nat.leb_spec (length submissions) 1) as [?|Hlen']; [discriminate|].
  inversion Hlen; subst s1. clear Hlen.
  apply bind_Ok in H as (staged & s1 & Hstage & H).
  apply lift_Ok in Hstage as [Hstage ->].
  apply bind_Ok in H as ([] & s1 & Hmk2 & H).
  unfold mkdir in Hmk2.
  rewrite (mkdir_from_again _ _ _ _ Hmk) in Hmk2. inversion Hmk2; subst s1. clear Hmk2.
  apply bind_Ok in H as (result & w2 & Hrun & H).
  apply bind_Ok in H as (paths & s2 & Hpaths & H).
  unfold ret in H. inversion H; subst. clear H. simpl.
  exists w1, w2, staged, result.
  repeat (split; [first [assumption | reflexivity]|]).
  destruct (Z.eqb_spec (returncode result) 0) as [Hrc|Hrc];
    [destruct (filter_runs_by_author (settings self)) eqn:Hf|]; simpl in Hpaths.
  - left. split; [assumption|]. split; [reflexivity|].
    apply bind_Ok in Hpaths as (p & s3 & Hpass & Hret).
    unfold ret in Hret. inversion Hret; subst. exists p. auto.
  - right. unfold ret in Hpaths. inversion Hpaths; subst. auto.
  - right. unfold ret in Hpaths. inversion Hpaths; subst. auto.
Qed.

(** X18. Whenever [run] returns, there were at least two submissions with
    distinct ids and the language was accepted; the report carries the
    detector's status, [report_path] is [report_dir/lang.jplag], and
    [report_min_path] is set exactly when the status is 0 and the filter
    is on. *)
Theorem returned_report (self : PyPlag) (lang : string)
    (submissions : list PyPlagSubmission) (w w' : world) (rpt : PyPlagReport) :
  run subprocess_run self lang submissions w = (Ok rpt, w') →
  (lang ∈ supported_languages self ∨ ignore_unsupported_language (settings self) = true)
  ∧ (1 < length submissions)%nat
  ∧ NoDup (map id submissions)
  ∧ report_path rpt = report_dir (settings self) ++ [lang +:+ ".jplag"]
  ∧ (is_Some (report_min_path rpt)
     ↔ status rpt = 0 ∧ filter_runs_by_author (settings self) = true).
Proof.
  intros H. apply run_returns in H
    as (w1 & w2 & staged & result & Hlang & _ & Hlen & Hstage & _ & Hst & _ & _ & Hcases).
  split; [assumption|]. split; [assumption|]. split.
  { destruct (decide (NoDup (map id submissions))) as [?|Hdup]; [assumption|].
    rewrite (stage_duplicate _ Hdup) in Hstage. discriminate. }
  rewrite Hst.
  destruct Hcases as [(Hrc & Hf & paths & Hpass & Hp & Hm)|(Hoff & _ & Hp & Hm)].
  - apply post_process_Ok in Hpass as (? & ? & ? & _ & _ & _ & -> & _).
    split; [assumption|]. rewrite Hm. split; [auto|eauto].
  - split; [assumption|]. rewrite Hm. split.
    + intros [? ?]. discriminate.
    + intros [Hrc Hf]. destruct Hoff; congruence.
Qed.

End RunProperties.

Lemma unsupported_language_is_rejected_witness :
  run failing_detector demo_self "cobol" demo_submissions demo_world
  = (Raise (PyPlagException
              "Attempted to run JPlag on submissions in unsupported language 'cobol'"),
     demo_world).
Proof.
  apply (unsupported_language_is_rejected failing_detector demo_self "cobol"
           demo_submissions demo_world).
  - intros H. apply list_elem_of_In in H. simpl in H. intuition discriminate.
  - reflexivity.
Defined.

Lemma too_few_submissions_witness :
  run failing_detector demo_self "python3" [demo_submission "one" "t1"] new_world
  = (Raise (PyPlagException "Too few submissions"), snd (mkdir ["reports"] new_world))
  ∧ snd (mkdir ["reports"] new_world) !! ["reports"] = Some Directory.
Proof.
  destruct (too_few_submissions failing_detector demo_self "python3"
              [demo_submission "one" "t1"] new_world (snd (mkdir ["reports"] new_world)))
    as (Hrun & Hdir & _).
  - left. apply list_elem_of_here.
  - by_computation.
  - simpl. lia.
  - split; [exact Hrun|]. apply Hdir. discriminate.
Defined.


Lemma filtered_run_reports_both_paths_witness :
  run demo_detector demo_self "python3" demo_submissions demo_world
  = (Ok {| status := 0; stdout := "done"; stderr := "";
           report_path := ["reports"; "python3.jplag"];
           report_min_path := Some ["reports"; "python3.min.jplag"] |},
     snd (_post_process_jplag_results demo_report demo_submissions
            (<[demo_report := ZipArchive main_archive]> demo_world))).
Proof.
  apply (filtered_run_reports_both_paths demo_detector demo_self "python3"
           demo_submissions demo_world demo_world
           (<[demo_report := ZipArchive main_archive]> demo_world)
           (snd (_post_process_jplag_results demo_report demo_submissions
                   (<[demo_report := ZipArchive main_archive]> demo_world)))
           (<["three" := {["main.py" := "print(input())"]}]>
              (<["two" := {["main.py" := "print(input())"]}]>
                 {["one" := {["main.py" := "print(input())"]}]}))
           {| returncode := 0; proc_stdout := "done"; proc_stderr := "" |}
           (demo_report, demo_report_min)).
  - discriminate.
  - left. apply list_elem_of_here.
  - by_computation.
  - simpl. lia.
  - by_computation.
  - reflexivity.
  - reflexivity.
  - reflexivity.
  - by_computation.
Defined.

Lemma pass_failure_leaves_run_witness :
  run silent_detector demo_self "python3" demo_submissions new_world
  = (Raise FileNotFoundError, snd (mkdir ["reports"] new_world)).
Proof.
  apply (pass_failure_leaves_run silent_detector demo_self "python3"
           demo_submissions new_world (snd (mkdir ["reports"] new_world))
           (snd (mkdir ["reports"] new_world)) (snd (mkdir ["reports"] new_world))
           (<["three" := {["main.py" := "print(input())"]}]>
              (<["two" := {["main.py" := "print(input())"]}]>
                 {["one" := {["main.py" := "print(input())"]}]}))
           {| returncode := 0; proc_stdout := ""; proc_stderr := "" |}
           FileNotFoundError).
  - left. apply list_elem_of_here.
  - by_computation.
  - simpl. lia.
  - by_computation.
  - reflexivity.
  - reflexivity.
  - reflexivity.
  - by_computation.
Defined.

Lemma returned_report_witness :
  NoDup (map id demo_submissions)
  ∧ (is_Some (Some demo_report_min)
     ↔ 0 = 0 ∧ filter_runs_by_author (settings demo_self) = true).
Proof.
  destruct (returned_report demo_detector demo_self "python3" demo_submissions demo_world
              (snd (run demo_detector demo_self "python3" demo_submissions demo_world))
              {| status := 0; stdout := "done"; stderr := "";
                 report_path := ["reports"; "python3.jplag"];
                 report_min_path := Some demo_report_min |})
    as (_ & _ & Hnd & _ & Hmin).
  - by_computation.
  - split; [exact Hnd | exact Hmin].
Defined.

(** ** The constructor and the first [run] *)

(** X19. A report directory that exists when the instance is constructed
    is empty when the first [run] has made it again: [run]'s [mkdir]
    after [__init__] leaves a directory at [report_dir] with no path
    below it, and changes no path that is neither below [report_dir] nor
    one of the directories leading to it. *)
Theorem fresh_report_directory (settings0 : PyPlagSettings) (self : PyPlag)
    (w w0 w1 : world) :
  report_dir settings0 ≠ [] →
  is_Some (w !! report_dir settings0) →
  __init__ settings0 w = (Ok self, w0) →
  mkdir (report_dir (settings self)) w0 = (Ok tt, w1) →
  w1 !! report_dir settings0 = Some Directory
  ∧ (∀ p : path, report_dir settings0 `prefix_of` p → p ≠ report_dir settings0 →
       w1 !! p = None)
  ∧ (∀ p : path, ¬ report_dir settings0 `prefix_of` p →
       ¬ p `prefix_of` report_dir settings0 → w1 !! p = w !! p).
Proof.
  intros Hne Hsome Hinit Hmk. unfold __init__, bind, get in Hinit.
  rewrite bool_decide_eq_true_2 in Hinit by assumption. unfold rmtree in Hinit.
  destruct (w !! report_dir settings0) as [[| |]|] eqn:Hdir; try discriminate.
  simpl in Hinit. inversion Hinit; subst self w0. clear Hinit. simpl in Hmk.
  unfold mkdir in Hmk. split; [|split].
  - now apply (mkdir_from_creates [] _ _ _ Hmk).
  - intros p Hp Hpne. rewrite (mkdir_from_frame _ _ _ _ _ Hmk).
    + apply map_lookup_filter_None. right. intros x _ Hn. now apply Hn.
    + simpl. intros Hq. apply Hpne. now apply (anti_symm prefix).
  - intros p Hp Hq. rewrite (mkdir_from_frame _ _ _ _ _ Hmk) by assumption.
    destruct (w !! p) as [x|] eqn:E.
    + apply map_lookup_filter_Some. auto.
    + apply map_lookup_filter_None. now left.
Qed.

Lemma fresh_report_directory_witness :
  snd (mkdir ["reports"] (snd (__init__ demo_settings used_world))) !! ["reports"]
  = Some Directory
  ∧ snd (mkdir ["reports"] (snd (__init__ demo_settings used_world)))
      !! ["reports"; "java.jplag"] = None.
Proof.
  destruct (fresh_report_directory demo_settings
              {| settings := demo_settings;
                 supported_languages :=
                   ["c"; "cpp"; "csharp"; "emf"; "emf-model"; "go"; "java";
                    "javascript"; "kotlin"; "llvmir"; "multi"; "python3"; "rlang";
                    "rust"; "scala"; "scheme"; "scxml"; "swift"; "text";
                    "typescript"] |}
              used_world (snd (__init__ demo_settings used_world))
              (snd (mkdir ["reports"] (snd (__init__ demo_settings used_world)))))
    as (Hdir & Hbelow & _).
  - discriminate.
  - exists Directory. by_computation.
  - by_computation.
  - by_computation.
  - split; [exact Hdir|]. apply Hbelow.
    + exists ["java.jplag"]. reflexivity.
    + discriminate.
Defined.

(** ** [main] *)

Lemma output_names_not_collision (report : path)
    (submissions : list PyPlagSubmission) (w w' : world) (paths : path * path)
    (out : directory) (name a b : string) (sa sb : PyPlagSubmission) :
  _post_process_jplag_results report submissions w = (Ok paths, w') →
  w' !! snd paths = Some (ZipArchive out) →
  In name (dir_names out) →
  entry_named name a b →
  make_submissions_dict submissions !! a = Some sa →
  make_submissions_dict submissions !! b = Some sb →
  author sa = author sb →
  False.
Proof.
  intros Hrun Hout Hin Hn Ha Hb Hauth.
  apply post_process_Ok in Hrun as (report_min & arch & st & _ & Hw & Hs & -> & ->).
  simpl in Hout. rewrite lookup_insert_eq in Hout. injection Hout as <-.
  apply sanitize_Ok in Hs as (o & st1 & _ & Hloop & ->).
  apply dir_names_walk_files in Hin. simpl in Hin.
  apply dir_names_write in Hin as [->|Hin].
  - eapply entry_named_not_ignored; [exact Hn|].
    unfold ignore_files. rewrite !elem_of_cons. auto 10.
  - assert (Hin0 : In name (dir_names (extractall arch))).
    { eapply loop_names in Hin; [|exact Hloop]. exact Hin. }
    destruct (loop_removes_collision _ _ _ _ _ _ _ _ _ Hloop Hin0 Hn Ha Hb Hauth)
      as [Hno _].
    now apply Hno.
Qed.

(** X20. [main] gives both of its submissions the author [python3] (the
    third positional field), so the pass takes them for one author's:
    whenever [main] gets status 0 from the detector, the report it prints
    has the paths [reports/python3.jplag] and [reports/python3.min.jplag],
    and the minimized archive has no entry for the pair [one], [two], the
    only comparison there is. *)
Theorem main_filters_its_only_comparison
    (subprocess_run : jplag_command → py world CompletedProcess)
    (w w' : world) (rpt : PyPlagReport) :
  main subprocess_run w = (Ok rpt, w') →
  status rpt = 0 →
  report_path rpt = ["reports"; "python3.jplag"]
  ∧ report_min_path rpt = Some ["reports"; "python3.min.jplag"]
  ∧ ∃ out, w' !! ["reports"; "python3.min.jplag"] = Some (ZipArchive out)
           ∧ ∀ name, In name (dir_names out) →
               ¬ entry_named name "one" "two" ∧ ¬ entry_named name "two" "one".
Proof.
  intros Hmain Hst. unfold main in Hmain.
  apply bind_Ok in Hmain as (pyplag & w0 & Hinit & Hrun).
  assert (Hset : settings pyplag
                 = {| java_cmd := "/usr/lib/jvm/java-21-openjdk/bin/java";
                      jplag_jar := ["dependencies"; "jplag.jar"];
                      report_dir := ["reports"];
                      clustering := true;
                      filter_runs_by_author := true;
                      ignore_unsupported_language := false |}).
  { unfold __init__ in Hinit.
    apply bind_Ok in Hinit as (s & s1 & _ & Hinit).
    apply bind_Ok in Hinit as ([] & s2 & _ & Hinit).
    unfold ret in Hinit. now inversion Hinit. }
  apply run_returns in Hrun
    as (w1 & w2 & staged & result & _ & _ & _ & _ & _ & Hstatus & _ & _ & Hcases).
  rewrite Hset in Hcases. simpl in Hcases.
  destruct Hcases as [(_ & _ & paths & Hpass & Hp & Hm)|([Hrc|Hf] & _)];
    [|congruence|discriminate].
  pose proof Hpass as Hpass'.
  apply post_process_Ok in Hpass' as (report_min & a & st & Hmin & _ & _ & Hpaths & Hw').
  assert (report_min = ["reports"; "python3.min.jplag"]) as ->.
  { vm_compute in Hmin. now injection Hmin. }
  rewrite Hp, Hm, Hpaths. split; [reflexivity|]. split; [reflexivity|].
  exists (walk_files (scratch st)). split.
  { rewrite Hw'. apply lookup_insert_eq. }
  intros name Hin.
  assert (Hout : w' !! snd paths = Some (ZipArchive (walk_files (scratch st)))).
  { rewrite Hpaths, Hw'. apply lookup_insert_eq. }
  pose (one := {| id := "one"; lang := "t1"; author := "python3";
                  files := {["main.py" := file]} |}).
  pose (two := {| id := "two"; lang := "t1"; author := "python3";
                  files := {["main.py" := file]} |}).
  split; intros Hn.
  - apply (output_names_not_collision _ _ _ _ _ _ name "one" "two" one two
             Hpass Hout Hin Hn); [by_computation|by_computation|reflexivity].
  - apply (output_names_not_collision _ _ _ _ _ _ name "two" "one" two one
             Hpass Hout Hin Hn); [by_computation|by_computation|reflexivity].
Qed.

Lemma main_filters_its_only_comparison_witness :
  ∃ out, snd (main demo_detector used_world) !! ["reports"; "python3.min.jplag"]
         = Some (ZipArchive out)
         ∧ ∀ name, In name (dir_names out) →
             ¬ entry_named name "one" "two" ∧ ¬ entry_named name "two" "one".
Proof.
  destruct (main_filters_its_only_comparison demo_detector used_world
              (snd (main demo_detector used_world))
              {| status := 0; stdout := "done"; stderr := "";
                 report_path := ["reports"; "python3.jplag"];
                 report_min_path := Some ["reports"; "python3.min.jplag"] |})
    as (_ & _ & Hout).
  - by_computation.
  - reflexivity.
  - exact Hout.
Defined.
